(** * Proxi policy agent: the policy engine, the mock infrastructure and the
      tool gateway, embedded from the Python sources.

    - [src/guardrails/policy_engine.py]    -> "Policy engine"
    - [src/mcp_server/tools.py]            -> "Cloud infrastructure"
    - [src/guardrails/impact_simulator.py] -> "Impact simulator"
    - [src/mcp_server/server.py]           -> "Gateway"

    The policy document ([policies/ops_policy.json]) is configuration: it is
    a value of type [Policy], and the properties below hold for every such
    value unless they name a concrete one.

    Conventions of the embedding.
    - A JSON value received in a request is a [pyval]; JSON numbers with a
      fractional part are left out.
    - Python dictionaries with string keys are [gmap string _], Python sets of
      strings are [gset string].  Where Python lists the keys of a dictionary
      in insertion order, the lists here come in the order of the map; no
      property below depends on that order.
    - A Python call either returns or raises: [outcome A].  Functions that
      mutate [self] return the new object next to the outcome, so that a
      mutation made before an exception is still visible afterwards.
    - A Python [str] is a [string] holding the bytes of its UTF-8 encoding;
      [str.upper()] and [str.lower()] follow Python's Unicode case mapping
      wherever the result can be ASCII text.
    - [print] calls and [datetime.now()] time stamps are dropped.
    - Rendered texts (f-strings, [str(result)]) are kept as structured values;
      the single place where the code inspects such a text
      (["success" in str(result).lower()]) is modelled on the text it
      inspects. *)

From Stdlib Require Import ZArith Ascii.
From stdpp Require Import gmap strings list fin_maps.

Local Open Scope string_scope.
Set Warnings "-register-all".

(** ** Python values *)

Inductive pyval : Type :=
| VNone
| VBool (b : bool)
| VInt (n : Z)
| VStr (s : string)
| VList (l : list pyval)
| VDict (d : list (string * pyval)).

(** [bool(v)]: the truth value Python gives to [v] in [if v] / [if not v]. *)
Definition truthy (v : pyval) : bool :=
  match v with
  | VNone => false
  | VBool b => b
  | VInt n => negb (n =? 0)%Z
  | VStr s => negb (String.eqb s "")
  | VList l => negb (bool_decide (length l = 0))
  | VDict d => negb (bool_decide (length d = 0))
  end.

(** Lists and dictionaries are unhashable: using one as a key of a [dict] or
    as a candidate member of a [set] raises [TypeError]. *)
Definition hashable (v : pyval) : bool :=
  match v with
  | VList _ | VDict _ => false
  | _ => true
  end.

(** [d.get(key)] on a request's argument dictionary. *)
Definition dict_get (d : gmap string pyval) (key : string) : pyval :=
  default VNone (d !! key).

(** ** Exceptions *)

(** What [str(e)] of a [PolicyViolationError] is built from (the f-string of
    each [raise] in [validate]). *)
Inductive violation_message : Type :=
| MsgPermanentlyBlocked (tool_name : string)
| MsgBlockedInMode (tool_name mode : string)
| MsgNotWhitelisted (tool_name mode : string)
| MsgRequiresServiceName (tool_name : string)
| MsgServiceIsHealthy (service_name : pyval) (broken : gset string).

Record PolicyViolation : Type := {
  pv_message : violation_message;
  pv_tool_name : string;
  pv_mode : string;
  pv_reason : string
}.

Inductive value_error : Type :=
| InvalidMode (mode : string)
| UnknownTool (tool_name : string)
| InvalidArguments (tool_name : string).

Inductive exn : Type :=
| PolicyViolationError (e : PolicyViolation)
| KeyError (key : string)
| TypeError
| ValueError (e : value_error)
| HTTPException (status_code : nat).

Inductive outcome (A : Type) : Type :=
| Return (a : A)
| Raise (e : exn).
Arguments Return {A} a.
Arguments Raise {A} e.

(** ** Policy engine ([policy_engine.py]) *)

(** One entry of [policy['modes']].  [service_restrictions] is read with
    [.get('service_restrictions', {}).get('enabled', False)]: both the inner
    dictionary and its [enabled] key may be absent. *)
Record ModePolicy : Type := {
  description : string;
  allowed_tools : list string;
  blocked_tools : list string;
  rationale : string;
  service_restrictions : option (option bool)
}.

Record Policy : Type := {
  always_blocked : list string;   (* policy['global_rules']['always_blocked'] *)
  modes : gmap string ModePolicy  (* policy['modes'] *)
}.

Record PolicyEngine : Type := {
  policy : Policy;
  current_mode : string;
  unhealthy_services : gset string
}.

(** [PolicyEngine.__init__] on an already loaded policy document. *)
Definition PolicyEngine_init (p : Policy) : PolicyEngine :=
  {| policy := p; current_mode := "NORMAL"; unhealthy_services := ∅ |}.

Definition set_mode (self : PolicyEngine) (mode : string)
  : outcome unit * PolicyEngine :=
  match modes (policy self) !! mode with
  | None => (Raise (ValueError (InvalidMode mode)), self)
  | Some _ =>
      (Return tt,
       {| policy := policy self; current_mode := mode;
          unhealthy_services := unhealthy_services self |})
  end.

Definition register_unhealthy_service (self : PolicyEngine) (service_name : string)
  : PolicyEngine :=
  {| policy := policy self; current_mode := current_mode self;
     unhealthy_services := {[service_name]} ∪ unhealthy_services self |}.

Definition mark_service_healthy (self : PolicyEngine) (service_name : string)
  : PolicyEngine :=
  {| policy := policy self; current_mode := current_mode self;
     unhealthy_services := unhealthy_services self ∖ {[service_name]} |}.

Definition _is_modification_tool (tool_name : string) : bool :=
  bool_decide (tool_name ∈ ["restart_service"; "scale_fleet"; "delete_database"]).

Definition restrictions_enabled (mode_policy : ModePolicy) : bool :=
  match service_restrictions mode_policy with
  | Some (Some enabled) => enabled
  | _ => false
  end.

Definition violation (self : PolicyEngine) (tool_name : string)
    (msg : violation_message) (reason : string) : exn :=
  PolicyViolationError
    {| pv_message := msg; pv_tool_name := tool_name;
       pv_mode := current_mode self; pv_reason := reason |}.

(** [service_name not in self.unhealthy_services], for a truthy
    [service_name]: a string is looked up, any other hashable value is never
    a member of a set of strings, an unhashable one raises. *)
Definition health_gate (self : PolicyEngine) (tool_name : string)
    (service_name : pyval) : outcome bool :=
  match service_name with
  | VList _ | VDict _ => Raise TypeError
  | VStr s =>
      if bool_decide (s ∈ unhealthy_services self) then Return true
      else Raise (violation self tool_name
                    (MsgServiceIsHealthy service_name (unhealthy_services self))
                    "Target service is not unhealthy")
  | _ => Raise (violation self tool_name
                  (MsgServiceIsHealthy service_name (unhealthy_services self))
                  "Target service is not unhealthy")
  end.

(** The service-specific check at the end of [validate], reached once the
    three list checks have passed. *)
Definition service_specific_check (self : PolicyEngine) (tool_name : string)
    (mode_policy : ModePolicy) (args : gmap string pyval) : outcome bool :=
  if _is_modification_tool tool_name then
    let service_name := dict_get args "service_name" in
    if negb (truthy service_name) then
      Raise (violation self tool_name (MsgRequiresServiceName tool_name)
               "Missing service target")
    else if String.eqb (current_mode self) "EMERGENCY"
            && restrictions_enabled mode_policy then
      health_gate self tool_name service_name
    else Return true
  else Return true.

(** [PolicyEngine.validate]: returns [True] or raises.  The [context]
    argument is never read. *)
Definition validate (self : PolicyEngine) (tool_name : string)
    (args : gmap string pyval) : outcome bool :=
  if bool_decide (tool_name ∈ always_blocked (policy self)) then
    Raise (violation self tool_name (MsgPermanentlyBlocked tool_name)
             "Globally blocked")
  else
    match modes (policy self) !! current_mode self with
    | None => Raise (KeyError (current_mode self))
    | Some mode_policy =>
        if bool_decide (tool_name ∈ blocked_tools mode_policy) then
          Raise (violation self tool_name
                   (MsgBlockedInMode tool_name (current_mode self))
                   (rationale mode_policy))
        else if negb (bool_decide (tool_name ∈ allowed_tools mode_policy)) then
          Raise (violation self tool_name
                   (MsgNotWhitelisted tool_name (current_mode self))
                   "Not in allowed tools list")
        else service_specific_check self tool_name mode_policy args
    end.

(** The request passes the global-block, mode-block and whitelist checks
    under the policy [mode_policy] of the current mode. *)
Definition passes_list_checks (self : PolicyEngine) (tool_name : string)
    (mode_policy : ModePolicy) : Prop :=
  (tool_name ∉ always_blocked (policy self))
  ∧ (modes (policy self) !! current_mode self = Some mode_policy)
  ∧ (tool_name ∉ blocked_tools mode_policy)
  ∧ (tool_name ∈ allowed_tools mode_policy).

(** A policy document in the shape the demo describes: NORMAL is read-only,
    EMERGENCY allows the corrective tools with the service restriction, and
    [delete_database] is blocked globally. *)
Definition normal_policy : ModePolicy :=
  {| description := "Read-only monitoring";
     allowed_tools := ["get_service_status"; "read_logs"; "list_services"];
     blocked_tools := ["restart_service"; "scale_fleet"; "delete_database"];
     rationale := "Read-only mode";
     service_restrictions := None |}.

Definition emergency_policy : ModePolicy :=
  {| description := "Incident response";
     allowed_tools := ["get_service_status"; "read_logs"; "list_services";
                       "restart_service"; "scale_fleet"];
     blocked_tools := ["delete_database"];
     rationale := "Corrective actions only";
     service_restrictions := Some (Some true) |}.

Definition ops_policy : Policy :=
  {| always_blocked := ["delete_database"];
     modes := <["NORMAL" := normal_policy]>
              (<["EMERGENCY" := emergency_policy]> ∅) |}.

Definition emergency_engine (broken : gset string) : PolicyEngine :=
  {| policy := ops_policy; current_mode := "EMERGENCY";
     unhealthy_services := broken |}.

(** ** Cloud infrastructure ([tools.py]) *)

(** One entry of [execution_log]: the action and its [details] dictionary. *)
Record log_entry : Type := {
  action : string;
  details : list (string * pyval)
}.

Record CloudInfrastructure : Type := {
  services : gmap string string;
  fleet_size : Z;
  execution_log : list log_entry
}.

Definition CloudInfrastructure_init : CloudInfrastructure :=
  {| services :=
       <["web-server" := "healthy"]>
       (<["api-gateway" := "healthy"]>
       (<["database" := "healthy"]>
       (<["cache" := "healthy"]>
       (<["load-balancer" := "healthy"]> ∅))));
     fleet_size := 3;
     execution_log := [] |}.

(** [log[-100:]] *)
Definition last_100 (log : list log_entry) : list log_entry :=
  drop (length log - 100) log.

Definition _log_action (self : CloudInfrastructure) (act : string)
    (det : list (string * pyval)) : CloudInfrastructure :=
  let log := (execution_log self ++ [{| action := act; details := det |}])%list in
  {| services := services self;
     fleet_size := fleet_size self;
     execution_log := if bool_decide (100 < length log) then last_100 log else log |}.

Definition set_services (self : CloudInfrastructure) (s : gmap string string)
  : CloudInfrastructure :=
  {| services := s; fleet_size := fleet_size self;
     execution_log := execution_log self |}.

Definition set_service_health (self : CloudInfrastructure)
    (service status : string) : CloudInfrastructure :=
  match services self !! service with
  | Some old_status =>
      _log_action (set_services self (<[service := status]> (services self)))
        "health_change"
        [("service", VStr service); ("old_status", VStr old_status);
         ("new_status", VStr status)]
  | None => self
  end.

(** [health in ["critical", "degraded"]] *)
Definition is_unhealthy (health : string) : bool :=
  bool_decide (health ∈ ["critical"; "degraded"]).

(** The names whose health is critical or degraded, as a set. *)
Definition unhealthy_of (s : gmap string string) : gset string :=
  dom (filter (λ kv, is_unhealthy kv.2 = true) s).

Definition get_unhealthy_services (self : CloudInfrastructure) : list string :=
  elements (unhealthy_of (services self)).

Inductive emoji : Type := CheckMark | WarningSign | RedCircle | QuestionMark.

Definition health_emoji (health : string) : emoji :=
  if String.eqb health "healthy" then CheckMark
  else if String.eqb health "degraded" then WarningSign
  else if String.eqb health "critical" then RedCircle
  else QuestionMark.

(** The dictionaries the tools return, one constructor per shape. *)
Inductive tool_result : Type :=
| ListServices (names : list string) (count : nat)
| ServiceNotFound (service_name : pyval) (available_services : list string)
| ServiceStatus (service : string) (health : string) (status_emoji : emoji)
    (is_healthy : bool)
| AllServices (svcs : gmap string string) (fleet : Z) (unhealthy_count : nat)
    (unhealthy : list string) (all_healthy : bool)
| LogLines (log_lines : list (string * string)) (total_available : nat)
    (services_logged : nat)
| RestartSuccess (service : string) (old_health : string)
| ScaleError (message : string)
| ScaleSuccess (old_size new_size change : Z)
| DeleteError (db_name : pyval).

Definition service_names (self : CloudInfrastructure) : list string :=
  elements (dom (services self)).

Definition list_services (self : CloudInfrastructure)
  : outcome tool_result * CloudInfrastructure :=
  let self := _log_action self "list_services" [] in
  (Return (ListServices (service_names self) (size (services self))), self).

Definition get_service_status (self : CloudInfrastructure) (service_name : pyval)
  : outcome tool_result * CloudInfrastructure :=
  let self := _log_action self "get_service_status" [("service", service_name)] in
  if truthy service_name then
    match service_name with
    | VList _ | VDict _ => (Raise TypeError, self)
    | VStr s =>
        match services self !! s with
        | None => (Return (ServiceNotFound service_name (service_names self)), self)
        | Some health =>
            (Return (ServiceStatus s health (health_emoji health)
                       (String.eqb health "healthy")), self)
        end
    | _ => (Return (ServiceNotFound service_name (service_names self)), self)
    end
  else
    let unhealthy := get_unhealthy_services self in
    (Return (AllServices (services self) (fleet_size self) (length unhealthy)
               unhealthy (bool_decide (length unhealthy = 0))), self).

(** One generated log line: its level and the service it is about. *)
Definition service_log_line (kv : string * string) : list (string * string) :=
  if String.eqb kv.2 "healthy" then [("INFO", kv.1)]
  else if String.eqb kv.2 "degraded" then [("WARN", kv.1)]
  else if String.eqb kv.2 "critical" then [("ERROR", kv.1)]
  else [].

(** [entries[:n]] for an integer [n] (negative [n] counts from the end). *)
Definition slice_to (n : Z) {A} (entries : list A) : list A :=
  if (0 <=? n)%Z then take (Z.to_nat n) entries
  else take (length entries - Z.to_nat (- n)) entries.

Definition read_logs (self : CloudInfrastructure) (lines : pyval)
  : outcome tool_result * CloudInfrastructure :=
  let self := _log_action self "read_logs" [("lines", lines)] in
  let log_entries :=
    ((map_to_list (services self) ≫= service_log_line)
     ++ [("INFO", "Fleet health check"); ("INFO", "Total services monitored");
         ("INFO", "Execution log entries")])%list in
  let ret shown :=
    (Return (LogLines shown (length log_entries) (size (services self))), self) in
  match lines with
  | VInt n => ret (slice_to n log_entries)
  | VBool b => ret (slice_to (Z.b2z b) log_entries)
  | VNone => ret log_entries
  | _ => (Raise TypeError, self)
  end.

Definition restart_service (self : CloudInfrastructure) (service_name : pyval)
  : outcome tool_result * CloudInfrastructure :=
  let self := _log_action self "restart_service" [("service", service_name)] in
  match service_name with
  | VList _ | VDict _ => (Raise TypeError, self)
  | VStr s =>
      match services self !! s with
      | None => (Return (ServiceNotFound service_name (service_names self)), self)
      | Some old_health =>
          (Return (RestartSuccess s old_health),
           set_services self (<[s := "healthy"]> (services self)))
      end
  | _ => (Return (ServiceNotFound service_name (service_names self)), self)
  end.

(** [CloudInfrastructure.scale_fleet] at its declared type, [count: int]. *)
Definition scale_fleet (self : CloudInfrastructure) (count : Z)
  : tool_result * CloudInfrastructure :=
  let self := _log_action self "scale_fleet" [("target_count", VInt count)] in
  if (count <? 1)%Z then (ScaleError "Fleet size must be at least 1", self)
  else if (count >? 100)%Z then
    (ScaleError "Fleet size cannot exceed 100 instances", self)
  else
    let old_size := fleet_size self in
    (ScaleSuccess old_size count (count - old_size),
     {| services := services self; fleet_size := count;
        execution_log := execution_log self |}).

(** [scale_fleet] on an untyped request value: a [bool] is an [int] in
    Python ([True == 1], [False == 0]) and is treated as that integer; for
    every other non-integer the comparison [count < 1] raises after the
    action has been logged. *)
Definition scale_fleet_value (self : CloudInfrastructure) (count : pyval)
  : outcome tool_result * CloudInfrastructure :=
  match count with
  | VInt n => let '(r, self') := scale_fleet self n in (Return r, self')
  | VBool b => let '(r, self') := scale_fleet self (Z.b2z b) in (Return r, self')
  | _ => (Raise TypeError,
          _log_action self "scale_fleet" [("target_count", count)])
  end.

Definition delete_database (self : CloudInfrastructure) (db_name : pyval)
  : outcome tool_result * CloudInfrastructure :=
  let self := _log_action self "delete_database_attempt" [("db_name", db_name)] in
  (Return (DeleteError db_name), self).

(** ** Text helpers *)

Definition ascii_lower (c : ascii) : ascii :=
  let n := nat_of_ascii c in
  if (65 <=? n)%nat && (n <=? 90)%nat then ascii_of_nat (n + 32) else c.

Definition ascii_upper (c : ascii) : ascii :=
  let n := nat_of_ascii c in
  if (97 <=? n)%nat && (n <=? 122)%nat then ascii_of_nat (n - 32) else c.

(** A Python [str] is held as the bytes of its UTF-8 encoding. *)
Definition text (bytes : list nat) : string :=
  fold_right (λ b s, String (ascii_of_nat b) s) EmptyString bytes.

(** The characters outside ASCII whose [str.upper()] contains an ASCII
    character, with that upper-case text (Python applies the full Unicode
    case mapping, so one character may become several):
    sharp s, dotless i, n preceded by apostrophe, long s, j with caron. *)
Definition upper_2 (b1 b2 : nat) : option string :=
  if (b1 =? 195)%nat && (b2 =? 159)%nat then Some "SS"
  else if (b1 =? 196)%nat && (b2 =? 177)%nat then Some "I"
  else if (b1 =? 197)%nat && (b2 =? 137)%nat then Some (text [202; 188] ++ "N")
  else if (b1 =? 197)%nat && (b2 =? 191)%nat then Some "S"
  else if (b1 =? 199)%nat && (b2 =? 176)%nat then Some ("J" ++ text [204; 140])
  else None.

(** The same for characters of three bytes: h with line below, t with
    diaeresis, w and y with ring above, a with right half ring, and the
    ligatures ff, fi, fl, ffi, ffl, long-s-t and st. *)
Definition upper_3 (b1 b2 b3 : nat) : option string :=
  if (b1 =? 225)%nat && (b2 =? 186)%nat then
    if (b3 =? 150)%nat then Some ("H" ++ text [204; 177])
    else if (b3 =? 151)%nat then Some ("T" ++ text [204; 136])
    else if (b3 =? 152)%nat then Some ("W" ++ text [204; 138])
    else if (b3 =? 153)%nat then Some ("Y" ++ text [204; 138])
    else if (b3 =? 154)%nat then Some ("A" ++ text [202; 190])
    else None
  else if (b1 =? 239)%nat && (b2 =? 172)%nat then
    if (b3 =? 128)%nat then Some "FF"
    else if (b3 =? 129)%nat then Some "FI"
    else if (b3 =? 130)%nat then Some "FL"
    else if (b3 =? 131)%nat then Some "FFI"
    else if (b3 =? 132)%nat then Some "FFL"
    else if (b3 =? 133)%nat then Some "ST"
    else if (b3 =? 134)%nat then Some "ST"
    else None
  else None.

(** The characters outside ASCII whose [str.lower()] contains an ASCII
    character: capital I with dot above and the Kelvin sign. *)
Definition lower_2 (b1 b2 : nat) : option string :=
  if (b1 =? 196)%nat && (b2 =? 176)%nat then Some ("i" ++ text [204; 135])
  else None.

Definition lower_3 (b1 b2 b3 : nat) : option string :=
  if (b1 =? 226)%nat && (b2 =? 132)%nat && (b3 =? 170)%nat then Some "k"
  else None.

(** [s.lower()] and [s.upper()].  ASCII letters change case, and the
    characters listed above get their Python case mapping.  Every other
    character outside ASCII is left as it is: Python maps some of them to
    other characters outside ASCII, never to text with an ASCII character.
    So whenever Python's result is ASCII text the result here is the same
    text, and whenever Python's result is not ASCII text the result here is
    not either; the code only ever compares these results with ASCII
    literals ("REAL", "SHADOW", "success"). *)
Fixpoint lower (s : string) : string :=
  match s with
  | EmptyString => EmptyString
  | String c1 s1 =>
      let plain := String (ascii_lower c1) (lower s1) in
      match s1 with
      | EmptyString => plain
      | String c2 s2 =>
          match lower_2 (nat_of_ascii c1) (nat_of_ascii c2) with
          | Some l => l ++ lower s2
          | None =>
              match s2 with
              | EmptyString => plain
              | String c3 s3 =>
                  match lower_3 (nat_of_ascii c1) (nat_of_ascii c2)
                          (nat_of_ascii c3) with
                  | Some l => l ++ lower s3
                  | None => plain
                  end
              end
          end
      end
  end.

Fixpoint upper (s : string) : string :=
  match s with
  | EmptyString => EmptyString
  | String c1 s1 =>
      let plain := String (ascii_upper c1) (upper s1) in
      match s1 with
      | EmptyString => plain
      | String c2 s2 =>
          match upper_2 (nat_of_ascii c1) (nat_of_ascii c2) with
          | Some u => u ++ upper s2
          | None =>
              match s2 with
              | EmptyString => plain
              | String c3 s3 =>
                  match upper_3 (nat_of_ascii c1) (nat_of_ascii c2)
                          (nat_of_ascii c3) with
                  | Some u => u ++ upper s3
                  | None => plain
                  end
              end
          end
      end
  end.

(** [needle in hay] on strings. *)
Fixpoint substring_in (needle hay : string) : bool :=
  String.prefix needle hay ||
  match hay with
  | EmptyString => false
  | String _ hay' => substring_in needle hay'
  end.

(** ** Impact simulator ([impact_simulator.py]) *)

Inductive impact_report : Type :=
| ImpactRestart (service : pyval) (current_health : string)
| ImpactScale (current_size : Z) (target_size : pyval) (estimated_cost_delta : Z)
| ImpactDelete
| ImpactLow.

(** [infra.services.get(key, dflt)] for an arbitrary key value. *)
Definition services_get (s : gmap string string) (key : pyval) (dflt : string)
  : outcome string :=
  match key with
  | VList _ | VDict _ => Raise TypeError
  | VStr k => Return (default dflt (s !! k))
  | _ => Return dflt
  end.

Definition simulate (tool_name : string) (args : gmap string pyval)
    (infra : CloudInfrastructure) : outcome impact_report :=
  if String.eqb tool_name "restart_service" then
    let service := dict_get args "service_name" in
    match services_get (services infra) service "unknown" with
    | Raise e => Raise e
    | Return health => Return (ImpactRestart service health)
    end
  else if String.eqb tool_name "scale_fleet" then
    let current := fleet_size infra in
    let target := dict_get args "count" in
    match target with
    | VInt n => Return (ImpactScale current target ((n - current) * 4000))
    | VBool b => Return (ImpactScale current target ((Z.b2z b - current) * 4000))
    | _ => Raise TypeError
    end
  else if String.eqb tool_name "delete_database" then Return ImpactDelete
  else Return ImpactLow.

(** ** Gateway ([server.py]) *)

(** The two module-level objects of the server. *)
Record Server : Type := {
  policy_engine : PolicyEngine;
  cloud_infra : CloudInfrastructure
}.

Definition Server_init (p : Policy) : Server :=
  {| policy_engine := PolicyEngine_init p;
     cloud_infra := CloudInfrastructure_init |}.

(** [ToolRequest]; the [context] field is never read by [validate]. *)
Record ToolRequest : Type := {
  tool_name : string;
  arguments : gmap string pyval;
  execution_mode : string
}.

Inductive response_result : Type :=
| ToolOutput (r : tool_result)
| ShadowOutput (impact : impact_report).

Inductive error_text : Type :=
| PolicyViolationText (reason : string)   (* f"Policy violation: {e.reason}" *)
| ExecutionErrorText (e : exn).           (* f"Execution error: {str(e)}" *)

Record ToolResponse : Type := {
  success : bool;
  result : option response_result;
  error : option error_text;
  policy_violation : bool;
  blocked_reason : option violation_message
}.

Definition success_response (r : response_result) : ToolResponse :=
  {| success := true; result := Some r; error := None;
     policy_violation := false; blocked_reason := None |}.

Definition violation_response (e : PolicyViolation) : ToolResponse :=
  {| success := false; result := None;
     error := Some (PolicyViolationText (pv_reason e));
     policy_violation := true; blocked_reason := Some (pv_message e) |}.

Definition execution_error_response (e : exn) : ToolResponse :=
  {| success := false; result := None; error := Some (ExecutionErrorText e);
     policy_violation := false; blocked_reason := None |}.

(** Binding of [**arguments] to a signature: every required name is given
    and no name outside the signature is. *)
Definition accepts (required optional : gset string)
    (args : gmap string pyval) : bool :=
  bool_decide (required ⊆ dom args ∧ dom args ⊆ required ∪ optional).

Definition type_error_to_value_error {A} (tool : string) (r : outcome A)
  : outcome A :=
  match r with
  | Raise TypeError => Raise (ValueError (InvalidArguments tool))
  | _ => r
  end.

Definition _execute_tool_function (tool : string) (args : gmap string pyval)
    (infra : CloudInfrastructure) : outcome tool_result * CloudInfrastructure :=
  let call (required optional : gset string)
           (tool_function : CloudInfrastructure →
                            outcome tool_result * CloudInfrastructure) :=
    if accepts required optional args then
      let '(r, infra') := tool_function infra in
      (type_error_to_value_error tool r, infra')
    else (Raise (ValueError (InvalidArguments tool)), infra) in
  if String.eqb tool "get_service_status" then
    call ∅ {["service_name"]}
      (λ infra, get_service_status infra (dict_get args "service_name"))
  else if String.eqb tool "read_logs" then
    call ∅ {["lines"]}
      (λ infra, read_logs infra (default (VInt 10) (args !! "lines")))
  else if String.eqb tool "restart_service" then
    call {["service_name"]} ∅
      (λ infra, restart_service infra (dict_get args "service_name"))
  else if String.eqb tool "scale_fleet" then
    call {["count"]} ∅
      (λ infra, scale_fleet_value infra (dict_get args "count"))
  else if String.eqb tool "delete_database" then
    call {["db_name"]} ∅
      (λ infra, delete_database infra (dict_get args "db_name"))
  else if String.eqb tool "list_services" then
    call ∅ ∅ list_services
  else (Raise (ValueError (UnknownTool tool)), infra).

(** One step of the status feedback: what the loop body (and the
    single-service branch) does with a service and its health. *)
Definition observe (pe : PolicyEngine) (svc health : string) : PolicyEngine :=
  if is_unhealthy health then register_unhealthy_service pe svc
  else if String.eqb health "healthy" then mark_service_healthy pe svc
  else pe.

(** [_update_unhealthy_services]; its [status_result] argument is not used.
    A key that is not a string finds the default "unknown" (or raises
    [TypeError], which the function swallows): no update either way. *)
Definition _update_unhealthy_services (service_name : pyval) (st : Server)
  : Server :=
  let infra := cloud_infra st in
  let pe := policy_engine st in
  {| cloud_infra := infra;
     policy_engine :=
       match service_name with
       | VNone =>
           map_fold (λ svc health pe, observe pe svc health) pe (services infra)
       | VStr s =>
           match services infra !! s with
           | Some health => observe pe s health
           | None => pe
           end
       | _ => pe
       end |}.

(** ["success" in str(result).lower()], for the two dictionaries
    [restart_service] returns: the success dictionary carries
    ['status': 'success']; in the not-found dictionary the only text that is
    not fixed is the service name inside the message. *)
Definition mentions_success (r : tool_result) : bool :=
  match r with
  | RestartSuccess _ _ => true
  | ServiceNotFound service_name names =>
      match service_name with
      | VStr s => substring_in "success" (lower s)
      | _ => false
      end
      || existsb (λ n, substring_in "success" (lower n)) names
  | _ => false
  end.

(** The reconciliation after a restart, for a truthy [service_name]:
    [mark_service_healthy] then [set_service_health(service_name, "healthy")].
    Discarding an unhashable value from the set raises; a hashable value that
    is not a string is in neither structure. *)
Definition reconcile_restart (service_name : pyval) (st : Server)
  : outcome unit * Server :=
  if truthy service_name then
    match service_name with
    | VList _ | VDict _ => (Raise TypeError, st)
    | VStr s =>
        (Return tt,
         {| policy_engine := mark_service_healthy (policy_engine st) s;
            cloud_infra := set_service_health (cloud_infra st) s "healthy" |})
    | _ => (Return tt, st)
    end
  else (Return tt, st).

Definition with_infra (st : Server) (infra : CloudInfrastructure) : Server :=
  {| policy_engine := policy_engine st; cloud_infra := infra |}.

(** [(request.execution_mode or "REAL").upper()] *)
Definition normalised_execution_mode (request : ToolRequest) : string :=
  upper (if String.eqb (execution_mode request) "" then "REAL"
         else execution_mode request).

(** The keys of [tool_map]. *)
Definition tool_catalog : list string :=
  ["get_service_status"; "read_logs"; "restart_service"; "scale_fleet";
   "delete_database"; "list_services"].

(** [execute_tool]: the response (or the exception that leaves the handler)
    and the server state afterwards. *)
Definition execute_tool (request : ToolRequest) (st : Server)
  : outcome ToolResponse * Server :=
  let tool := tool_name request in
  let args := arguments request in
  if String.eqb tool "get_service_status" then
    let '(r, infra) := _execute_tool_function tool args (cloud_infra st) in
    match r with
    | Raise e => (Raise e, with_infra st infra)
    | Return result =>
        (Return (success_response (ToolOutput result)),
         _update_unhealthy_services (dict_get args "service_name")
           (with_infra st infra))
    end
  else
    match validate (policy_engine st) tool args with
    | Raise (PolicyViolationError e) => (Return (violation_response e), st)
    | Raise e => (Raise e, st)
    | Return _ =>
        let mode := normalised_execution_mode request in
        if negb (bool_decide (mode ∈ ["REAL"; "SHADOW"])) then
          (Raise (HTTPException 400), st)
        else if String.eqb mode "SHADOW" then
          match simulate tool args (cloud_infra st) with
          | Raise e => (Raise e, st)
          | Return impact => (Return (success_response (ShadowOutput impact)), st)
          end
        else
          let '(r, infra) := _execute_tool_function tool args (cloud_infra st) in
          let st := with_infra st infra in
          match r with
          | Raise e => (Return (execution_error_response e), st)
          | Return result =>
              let '(reconciled, st) :=
                if String.eqb tool "restart_service" && mentions_success result
                then reconcile_restart (dict_get args "service_name") st
                else (Return tt, st) in
              match reconciled with
              | Raise e => (Return (execution_error_response e), st)
              | Return _ => (Return (success_response (ToolOutput result)), st)
              end
          end
    end.

(** [POST /infrastructure/simulate-incident] *)
Definition simulate_incident (service status : string) (st : Server)
  : outcome (string * bool) * Server :=
  let infra := set_service_health (cloud_infra st) service status in
  let pe :=
    if is_unhealthy status
    then register_unhealthy_service (policy_engine st) service
    else mark_service_healthy (policy_engine st) service in
  let st := {| policy_engine := pe; cloud_infra := infra |} in
  match services infra !! service with
  | None => (Raise (KeyError service), st)
  | Some health =>
      (Return (health, bool_decide (service ∈ unhealthy_services pe)), st)
  end.

(** [POST /infrastructure/fix-service] *)
Definition fix_service (service : string) (st : Server)
  : list string * Server :=
  let infra := set_service_health (cloud_infra st) service "healthy" in
  let pe := mark_service_healthy (policy_engine st) service in
  (elements (unhealthy_services pe),
   {| policy_engine := pe; cloud_infra := infra |}).

(** [POST /policy/set-mode]: a [ValueError] becomes a 400 response. *)
Definition set_mode_endpoint (mode : string) (st : Server)
  : outcome string * Server :=
  match set_mode (policy_engine st) mode with
  | (Return _, pe) =>
      (Return mode, {| policy_engine := pe; cloud_infra := cloud_infra st |})
  | (Raise _, _) => (Raise (HTTPException 400), st)
  end.

(** ** Concrete configurations used in examples *)

(** A policy document with a third mode that carries the restriction flag. *)
Definition maintenance_policy : ModePolicy :=
  {| description := "Planned maintenance";
     allowed_tools := ["get_service_status"; "restart_service"];
     blocked_tools := ["delete_database"];
     rationale := "Maintenance window";
     service_restrictions := Some (Some true) |}.

Definition extended_policy : Policy :=
  {| always_blocked := ["delete_database"];
     modes := <["MAINTENANCE" := maintenance_policy]> (modes ops_policy) |}.

Definition maintenance_engine : PolicyEngine :=
  {| policy := extended_policy; current_mode := "MAINTENANCE";
     unhealthy_services := ∅ |}.

(** A policy document whose NORMAL mode whitelists the status check only. *)
Definition status_only_policy : Policy :=
  {| always_blocked := ["delete_database"];
     modes := <["NORMAL" :=
                 {| description := "Status only";
                    allowed_tools := ["get_service_status"];
                    blocked_tools := [];
                    rationale := "Status only";
                    service_restrictions := None |}]> ∅ |}.

(** A policy document that whitelists a name for which there is no tool. *)
Definition lenient_policy : Policy :=
  {| always_blocked := [];
     modes := <["NORMAL" :=
                 {| description := "Everything goes";
                    allowed_tools := ["get_service_status"; "frobnicate"];
                    blocked_tools := [];
                    rationale := "None";
                    service_restrictions := None |}]> ∅ |}.

(** A SHADOW request for the log reader. *)
Definition shadow_read_logs : ToolRequest :=
  {| tool_name := "read_logs"; arguments := ∅; execution_mode := "SHADOW" |}.

(** A SHADOW request for a name that is not a tool. *)
Definition shadow_frobnicate : ToolRequest :=
  {| tool_name := "frobnicate"; arguments := ∅; execution_mode := "Shadow" |}.

Definition real_request (tool : string) (args : gmap string pyval) : ToolRequest :=
  {| tool_name := tool; arguments := args; execution_mode := "REAL" |}.

(** The server in EMERGENCY mode after the incident "cache is critical" has
    been simulated. *)
Definition cache_incident : Server :=
  (simulate_incident "cache" "critical"
     (set_mode_endpoint "EMERGENCY" (Server_init ops_policy)).2).2.

(** ** The synchronisation invariant of the two health structures *)

(** The unhealthy set of the policy engine is the set of services whose
    health in the infrastructure is critical or degraded. *)
Definition health_sync (st : Server) : Prop :=
  unhealthy_services (policy_engine st) = unhealthy_of (services (cloud_infra st)).

(** Membership in the unhealthy set after every service of [m] has been
    observed, starting from the set [before]. *)
Definition observed_in (m : gmap string string) (before : gset string)
    (svc : string) : Prop :=
  match m !! svc with
  | Some health =>
      if is_unhealthy health then True
      else if String.eqb health "healthy" then False
      else svc ∈ before
  | None => svc ∈ before
  end.

(** The states the server can be in when every simulated incident names a
    service of the health map. *)
Inductive reachable (p : Policy) : Server → Prop :=
| reach_init : reachable p (Server_init p)
| reach_tool st request :
    reachable p st → reachable p (execute_tool request st).2
| reach_incident st service status :
    reachable p st →
    is_Some (services (cloud_infra st) !! service) →
    reachable p (simulate_incident service status st).2
| reach_fix st service :
    reachable p st → reachable p (fix_service service st).2
| reach_mode st mode :
    reachable p st → reachable p (set_mode_endpoint mode st).2.

(** ** Runs of the server *)

(** The four requests that write to the server state:
    [POST /tools/execute], [POST /infrastructure/simulate-incident],
    [POST /infrastructure/fix-service] and [POST /policy/set-mode].  Each is
    handled to completion before the next one. *)
Inductive event : Type :=
| ToolCall (request : ToolRequest)
| Incident (service status : string)
| Fix (service : string)
| ModeChange (mode : string).

Definition step (st : Server) (ev : event) : Server :=
  match ev with
  | ToolCall request => (execute_tool request st).2
  | Incident service status => (simulate_incident service status st).2
  | Fix service => (fix_service service st).2
  | ModeChange mode => (set_mode_endpoint mode st).2
  end.

Definition run (evs : list event) (st : Server) : Server := foldl step st evs.

(** What [_log_action] does to the list: append, then keep the last 100. *)
Definition log_push (log : list log_entry) (entry : log_entry) : list log_entry :=
  let log := (log ++ [entry])%list in
  if bool_decide (100 < length log) then last_100 log else log.

(** [extends actions before after]: the log [after] is [before] after some
    calls of [_log_action], each with an action of [actions]. *)
Inductive extends (actions : list string)
  : list log_entry → list log_entry → Prop :=
| extends_refl log : extends actions log log
| extends_push before log entry :
    extends actions before log →
    action entry ∈ actions →
    extends actions before (log_push log entry).

(** The actions that [_log_action] is called with outside the bodies of
    [scale_fleet] and [delete_database]. *)
Definition routine_actions : list string :=
  ["list_services"; "get_service_status"; "read_logs"; "restart_service";
   "health_change"].

(** [GET /policy/status]: the mode with its two tool lists and the unhealthy
    set (the rendered summary is left out). *)
Definition get_policy_status (st : Server)
  : outcome (string * list string * list string * list string) :=
  let pe := policy_engine st in
  match modes (policy pe) !! current_mode pe with
  | None => Raise (KeyError (current_mode pe))
  | Some mode_policy =>
      Return (current_mode pe, allowed_tools mode_policy,
              blocked_tools mode_policy, elements (unhealthy_services pe))
  end.

(** ** The agent's side of a tool call ([bot.py]) *)

(** What [_execute_mcp_tool] turns the server's answer into.  A handler that
    raises answers with an HTTP error status, and [raise_for_status] turns
    that into the "Connection error" text; failures of the network itself
    are not modelled. *)
Inductive agent_reply : Type :=
| ReplyPolicyBlocked (blocked : option violation_message)
| ReplySuccess (r : option response_result)
| ReplyError (e : option error_text)
| ReplyConnectionError.

(** The request the agent posts carries no [execution_mode], so the server
    takes the default "REAL". *)
Definition _execute_mcp_tool (tool : string) (kwargs : gmap string pyval)
    (st : Server) : agent_reply * Server :=
  let '(answer, st') := execute_tool (real_request tool kwargs) st in
  (match answer with
   | Raise _ => ReplyConnectionError
   | Return response =>
       if policy_violation response
       then ReplyPolicyBlocked (blocked_reason response)
       else if success response then ReplySuccess (result response)
       else ReplyError (error response)
   end, st').

(** The [scale_fleet] and [delete_database] tools of [_create_tools]. *)
Definition agent_scale_fleet (count : Z) (st : Server) : agent_reply * Server :=
  _execute_mcp_tool "scale_fleet" {["count" := VInt count]} st.

Definition agent_delete_database (db_name : string) (st : Server)
  : agent_reply * Server :=
  _execute_mcp_tool "delete_database" {["db_name" := VStr db_name]} st.

(** An infrastructure whose execution log is full. *)
Definition full_log_infra : CloudInfrastructure :=
  {| services := services CloudInfrastructure_init;
     fleet_size := 3;
     execution_log := replicate 100 {| action := "read_logs"; details := [] |} |}.

(** A SHADOW restart request on the server with the cache incident. *)
Definition shadow_restart_cache : ToolRequest :=
  {| tool_name := "restart_service";
     arguments := {["service_name" := VStr "cache"]};
     execution_mode := "shadow" |}.



Definition shadow_status : ToolRequest :=
  {| tool_name := "get_service_status"; arguments := ∅;
     execution_mode := "SHADOW" |}.

Definition maintenance_server : Server :=
  {| policy_engine := maintenance_engine;
     cloud_infra := CloudInfrastructure_init |}.

(** * Properties of the policy decision *)

(** Closed goals about concrete lists, sets and maps are decided by
    evaluation. *)
Ltac by_evaluation := apply (bool_decide_unpack _); vm_compute; exact I.

Ltac list_checks := repeat split; try reflexivity; by_evaluation.

Section Validate.
Implicit Types (self : PolicyEngine) (tool : string).
Implicit Types (args : gmap string pyval) (mp : ModePolicy).

Lemma validate_past_list_checks self tool mp args :
  passes_list_checks self tool mp →
  validate self tool args = service_specific_check self tool mp args.
Proof.
  intros (Hglobal & Hmode & Hblocked & Hallowed). unfold validate.
  rewrite bool_decide_eq_false_2 by done. rewrite Hmode.
  rewrite bool_decide_eq_false_2 by done.
  by rewrite (bool_decide_eq_true_2 _ Hallowed).
Qed.

Lemma health_gate_string self tool s :
  health_gate self tool (VStr s) =
    if bool_decide (s ∈ unhealthy_services self) then Return true
    else Raise (violation self tool
                  (MsgServiceIsHealthy (VStr s) (unhealthy_services self))
                  "Target service is not unhealthy").
Proof. reflexivity. Qed.

Lemma truthy_nonempty_string s : s ≠ "" → truthy (VStr s) = true.
Proof.
  intros Hs. simpl. destruct (String.eqb_spec s ""); [contradiction | done].
Qed.

Lemma dict_get_some args key v :
  args !! key = Some v → dict_get args key = v.
Proof. unfold dict_get. by intros ->. Qed.

End Validate.

(** C1. A tool of the global always-blocked list is denied with the reason
    "Globally blocked", whatever the current mode, the policy of that mode,
    the arguments and the unhealthy set are: the test is the first one of
    [validate], so nothing after it is consulted. *)
Theorem global_block_always_denies (self : PolicyEngine) (tool : string)
    (args : gmap string pyval) :
  tool ∈ always_blocked (policy self) →
  validate self tool args
  = Raise (PolicyViolationError
             {| pv_message := MsgPermanentlyBlocked tool;
                pv_tool_name := tool;
                pv_mode := current_mode self;
                pv_reason := "Globally blocked" |}).
Proof.
  intros Hin. unfold validate. by rewrite (bool_decide_eq_true_2 _ Hin).
Qed.

Lemma global_block_always_denies_witness :
  validate (emergency_engine {["database"]}) "delete_database"
    {["service_name" := VStr "database"]}
  = Raise (PolicyViolationError
             {| pv_message := MsgPermanentlyBlocked "delete_database";
                pv_tool_name := "delete_database";
                pv_mode := "EMERGENCY";
                pv_reason := "Globally blocked" |}).
Proof.
  apply (global_block_always_denies (emergency_engine {["database"]})).
  by_evaluation.
Defined.

(** C2 as the claim states it fails for the empty target: [validate] rejects
    a falsy [service_name] before it looks at the unhealthy set.  With an
    empty unhealthy set the denial reason is "Missing service target", not
    "Target service is not unhealthy"; and when the empty name has been
    registered as unhealthy the request is still not allowed. *)
Lemma emergency_restart_empty_target :
  current_mode (emergency_engine ∅) = "EMERGENCY"
  ∧ passes_list_checks (emergency_engine ∅) "restart_service" emergency_policy
  ∧ restrictions_enabled emergency_policy = true
  ∧ ("" ∉ unhealthy_services (emergency_engine ∅))
  ∧ validate (emergency_engine ∅) "restart_service" {["service_name" := VStr ""]}
    = Raise (PolicyViolationError
               {| pv_message := MsgRequiresServiceName "restart_service";
                  pv_tool_name := "restart_service";
                  pv_mode := "EMERGENCY";
                  pv_reason := "Missing service target" |})
  ∧ "" ∈ unhealthy_services (emergency_engine {[""]})
  ∧ validate (emergency_engine {[""]}) "restart_service"
      {["service_name" := VStr ""]} ≠ Return true.
Proof.
  split; [reflexivity |]. split; [list_checks |].
  split; [reflexivity |]. split; [by_evaluation |].
  split; [by vm_compute |]. split; [by_evaluation | by vm_compute].
Qed.

(** C2 (amended). In EMERGENCY mode with the restriction enabled, once
    [restart_service] passes the three list checks, a request whose
    [service_name] is a non-empty string [R] is allowed exactly when [R] is in
    the unhealthy set at that moment, and is otherwise denied with the reason
    "Target service is not unhealthy". *)
Theorem emergency_restart_iff_unhealthy (self : PolicyEngine)
    (mp : ModePolicy) (args : gmap string pyval) (R : string) :
  current_mode self = "EMERGENCY" →
  restrictions_enabled mp = true →
  passes_list_checks self "restart_service" mp →
  args !! "service_name" = Some (VStr R) →
  R ≠ "" →
  (validate self "restart_service" args = Return true
   ↔ R ∈ unhealthy_services self)
  ∧ (R ∉ unhealthy_services self →
     validate self "restart_service" args
     = Raise (PolicyViolationError
                {| pv_message :=
                     MsgServiceIsHealthy (VStr R) (unhealthy_services self);
                   pv_tool_name := "restart_service";
                   pv_mode := "EMERGENCY";
                   pv_reason := "Target service is not unhealthy" |})).
Proof.
  intros Hmode Hen Hpass Hget HR.
  rewrite (validate_past_list_checks _ _ _ _ Hpass).
  unfold service_specific_check.
  replace (_is_modification_tool "restart_service") with true by done.
  rewrite (dict_get_some _ _ _ Hget), (truthy_nonempty_string _ HR).
  rewrite Hmode, Hen. simpl negb. simpl andb. cbv iota.
  rewrite health_gate_string. unfold violation. rewrite Hmode.
  case_bool_decide as Hin; split; try done.
Qed.

Lemma emergency_restart_iff_unhealthy_witness :
  (validate (emergency_engine {["cache"]}) "restart_service"
     {["service_name" := VStr "cache"]} = Return true
   ↔ "cache" ∈ unhealthy_services (emergency_engine {["cache"]}))
  ∧ ("cache" ∉ unhealthy_services (emergency_engine {["cache"]}) →
     validate (emergency_engine {["cache"]}) "restart_service"
       {["service_name" := VStr "cache"]}
     = Raise (PolicyViolationError
                {| pv_message :=
                     MsgServiceIsHealthy (VStr "cache")
                       (unhealthy_services (emergency_engine {["cache"]}));
                   pv_tool_name := "restart_service";
                   pv_mode := "EMERGENCY";
                   pv_reason := "Target service is not unhealthy" |})).
Proof.
  apply (emergency_restart_iff_unhealthy (emergency_engine {["cache"]})
           emergency_policy).
  - reflexivity.
  - reflexivity.
  - list_checks.
  - reflexivity.
  - discriminate.
Defined.

(** C4 as the claim states it fails: in a mode named MAINTENANCE whose policy
    carries [service_restrictions.enabled = true], a whitelisted restart of a
    service that is not in the unhealthy set is allowed; [validate] tests the
    flag only after [self.current_mode == "EMERGENCY"]. *)
Lemma flag_ignored_outside_emergency :
  passes_list_checks maintenance_engine "restart_service" maintenance_policy
  ∧ restrictions_enabled maintenance_policy = true
  ∧ _is_modification_tool "restart_service" = true
  ∧ ("database" ∉ unhealthy_services maintenance_engine)
  ∧ validate maintenance_engine "restart_service"
      {["service_name" := VStr "database"]} = Return true.
Proof.
  split; [list_checks |]. split; [reflexivity |]. split; [reflexivity |].
  split; [by_evaluation | by vm_compute].
Qed.

(** C4 (amended). For a whitelisted mutation-class tool whose target is a
    non-empty string, the health gate is enforced exactly when the current
    mode is the one literally named EMERGENCY and that mode's policy has the
    restriction flag set: then, and only then, a target outside the unhealthy
    set is denied with "Target service is not unhealthy"; in every other mode,
    and in EMERGENCY without the flag, the request is allowed whatever the
    target's health. *)
Theorem health_gate_only_in_emergency (self : PolicyEngine) (tool : string)
    (mp : ModePolicy) (args : gmap string pyval) (target : string) :
  passes_list_checks self tool mp →
  _is_modification_tool tool = true →
  args !! "service_name" = Some (VStr target) →
  target ≠ "" →
  (validate self tool args
   = Raise (PolicyViolationError
              {| pv_message :=
                   MsgServiceIsHealthy (VStr target) (unhealthy_services self);
                 pv_tool_name := tool;
                 pv_mode := current_mode self;
                 pv_reason := "Target service is not unhealthy" |})
   ↔ current_mode self = "EMERGENCY" ∧ restrictions_enabled mp = true
     ∧ target ∉ unhealthy_services self)
  ∧ (current_mode self ≠ "EMERGENCY" ∨ restrictions_enabled mp = false →
     validate self tool args = Return true).
Proof.
  intros Hpass Hmod Hget Htarget.
  rewrite (validate_past_list_checks _ _ _ _ Hpass).
  unfold service_specific_check.
  rewrite Hmod, (dict_get_some _ _ _ Hget), (truthy_nonempty_string _ Htarget).
  simpl negb. cbv iota.
  destruct (String.eqb_spec (current_mode self) "EMERGENCY") as [Hmode | Hmode];
    destruct (restrictions_enabled mp) eqn:Hen; simpl andb; cbv iota.
  - rewrite health_gate_string. unfold violation.
    case_bool_decide as Hin; split.
    + split; [discriminate | by intros (_ & _ & ?)].
    + intros [? | ?]; done.
    + split; [done | reflexivity].
    + intros [? | ?]; done.
  - split; [split; [discriminate | by intros (_ & ? & _)] | done].
  - split; [split; [discriminate | by intros (? & _)] | done].
  - split; [split; [discriminate | by intros (? & _)] | done].
Qed.

Lemma health_gate_only_in_emergency_witness :
  (validate (emergency_engine {["cache"]}) "restart_service"
     {["service_name" := VStr "database"]}
   = Raise (PolicyViolationError
              {| pv_message :=
                   MsgServiceIsHealthy (VStr "database")
                     (unhealthy_services (emergency_engine {["cache"]}));
                 pv_tool_name := "restart_service";
                 pv_mode := current_mode (emergency_engine {["cache"]});
                 pv_reason := "Target service is not unhealthy" |})
   ↔ current_mode (emergency_engine {["cache"]}) = "EMERGENCY"
     ∧ restrictions_enabled emergency_policy = true
     ∧ "database" ∉ unhealthy_services (emergency_engine {["cache"]}))
  ∧ (current_mode (emergency_engine {["cache"]}) ≠ "EMERGENCY"
     ∨ restrictions_enabled emergency_policy = false →
     validate (emergency_engine {["cache"]}) "restart_service"
       {["service_name" := VStr "database"]}
     = Return true).
Proof.
  apply (health_gate_only_in_emergency (emergency_engine {["cache"]})
           "restart_service" emergency_policy
           {["service_name" := VStr "database"]} "database").
  - list_checks.
  - reflexivity.
  - reflexivity.
  - discriminate.
Defined.

(** Every mutation-class tool needs a truthy [service_name], and
    [scale_fleet] is on the mutation-class list: a request that carries only
    a count is rejected whatever the mode and the health state are. *)
Lemma fleet_scale_needs_service_name (self : PolicyEngine) (mp : ModePolicy)
    (args : gmap string pyval) :
  passes_list_checks self "scale_fleet" mp →
  args !! "service_name" = None →
  validate self "scale_fleet" args
  = Raise (PolicyViolationError
             {| pv_message := MsgRequiresServiceName "scale_fleet";
                pv_tool_name := "scale_fleet";
                pv_mode := current_mode self;
                pv_reason := "Missing service target" |}).
Proof.
  intros Hpass Hget. rewrite (validate_past_list_checks _ _ _ _ Hpass).
  unfold service_specific_check, dict_get. by rewrite Hget.
Qed.

(** C5 (the code departs from the claim). [scale_fleet] called with only a
    count, in EMERGENCY mode where it is whitelisted and not blocked, is
    denied with "Missing service target" instead of being allowed. *)
Theorem fleet_scale_count_only_denied :
  passes_list_checks (emergency_engine ∅) "scale_fleet" emergency_policy
  ∧ validate (emergency_engine ∅) "scale_fleet" {["count" := VInt 5]}
    = Raise (PolicyViolationError
               {| pv_message := MsgRequiresServiceName "scale_fleet";
                  pv_tool_name := "scale_fleet";
                  pv_mode := "EMERGENCY";
                  pv_reason := "Missing service target" |}).
Proof.
  split; [list_checks |].
  apply (fleet_scale_needs_service_name (emergency_engine ∅) emergency_policy);
    [list_checks | reflexivity].
Qed.

(** * Properties of the infrastructure *)

Lemma fleet_size_log_action (self : CloudInfrastructure) act det :
  fleet_size (_log_action self act det) = fleet_size self.
Proof. reflexivity. Qed.

(** C10. [scale_fleet] rejects a count below 1 or above 100 with an error
    result and leaves the fleet size as it was; for a count from 1 to 100 it
    returns the success result and the fleet size becomes that count. *)
Theorem scale_fleet_bounds (self : CloudInfrastructure) (count : Z) :
  ((count < 1 ∨ 100 < count)%Z →
   (∃ message, (scale_fleet self count).1 = ScaleError message)
   ∧ fleet_size (scale_fleet self count).2 = fleet_size self)
  ∧ ((1 ≤ count ≤ 100)%Z →
     (scale_fleet self count).1
     = ScaleSuccess (fleet_size self) count (count - fleet_size self)
     ∧ fleet_size (scale_fleet self count).2 = count).
Proof.
  unfold scale_fleet. split.
  - intros Hout. destruct (Z.ltb_spec count 1).
    + split; [by eexists | reflexivity].
    + destruct (Z.gtb_spec count 100); [| lia].
      split; [by eexists | reflexivity].
  - intros Hin. destruct (Z.ltb_spec count 1); [lia |].
    destruct (Z.gtb_spec count 100); [lia |]. by split.
Qed.

Lemma scale_fleet_bounds_witness :
  ((∃ message, (scale_fleet CloudInfrastructure_init 0).1 = ScaleError message)
   ∧ fleet_size (scale_fleet CloudInfrastructure_init 0).2 = 3%Z)
  ∧ ((∃ message, (scale_fleet CloudInfrastructure_init 101).1 = ScaleError message)
     ∧ fleet_size (scale_fleet CloudInfrastructure_init 101).2 = 3%Z)
  ∧ ((scale_fleet CloudInfrastructure_init 7).1 = ScaleSuccess 3 7 4
     ∧ fleet_size (scale_fleet CloudInfrastructure_init 7).2 = 7%Z).
Proof.
  split; [| split].
  - apply (proj1 (scale_fleet_bounds CloudInfrastructure_init 0)). lia.
  - apply (proj1 (scale_fleet_bounds CloudInfrastructure_init 101)). lia.
  - apply (proj2 (scale_fleet_bounds CloudInfrastructure_init 7)). lia.
Defined.

(** * Properties of the gateway *)

Section Gateway.
Implicit Types (request : ToolRequest) (st : Server) (e : PolicyViolation).

Lemma execute_tool_policy_violation request st e :
  tool_name request ≠ "get_service_status" →
  validate (policy_engine st) (tool_name request) (arguments request)
  = Raise (PolicyViolationError e) →
  execute_tool request st = (Return (violation_response e), st).
Proof.
  intros Htool Hdeny. unfold execute_tool.
  destruct (String.eqb_spec (tool_name request) "get_service_status");
    [contradiction |].
  by rewrite Hdeny.
Qed.

(** A tool that is not on the mutation-class list passes [validate] as soon
    as it passes the list checks. *)
Lemma validate_non_modification (self : PolicyEngine) tool mp args :
  passes_list_checks self tool mp →
  _is_modification_tool tool = false →
  validate self tool args = Return true.
Proof.
  intros Hpass Hmod. rewrite (validate_past_list_checks _ _ _ _ Hpass).
  unfold service_specific_check. by rewrite Hmod.
Qed.

(** Conversely a returning [validate] has passed the list checks. *)
Lemma validate_return_inv (self : PolicyEngine) tool args b :
  validate self tool args = Return b →
  ∃ mp, passes_list_checks self tool mp
        ∧ service_specific_check self tool mp args = Return b.
Proof.
  unfold validate. case_bool_decide as Hglobal; [discriminate |].
  destruct (modes (policy self) !! current_mode self) as [mp |] eqn:Hmode;
    [| discriminate].
  case_bool_decide as Hblocked; [discriminate |].
  case_bool_decide as Hallowed; simpl; [| discriminate].
  intros Hcheck. exists mp. by repeat split.
Qed.

Lemma not_whitelisted_is_violation (self : PolicyEngine) tool mp args :
  modes (policy self) !! current_mode self = Some mp →
  tool ∉ allowed_tools mp →
  ∃ e, validate self tool args = Raise (PolicyViolationError e).
Proof.
  intros Hmode Hallowed. unfold validate, violation.
  case_bool_decide; [by eexists |]. rewrite Hmode.
  case_bool_decide; [by eexists |].
  rewrite bool_decide_eq_false_2 by done. by eexists.
Qed.

End Gateway.

(** C8. When the gateway puts a request to the policy (it does so for every
    tool but [get_service_status]) and [validate] raises a policy violation,
    the response carries the violation's reason and message with
    [success = false] and [policy_violation = true], and the server state
    afterwards is the state before: the health map, the fleet size, the
    execution log, the unhealthy set and the current mode are untouched. *)
Theorem denial_has_no_side_effect (request : ToolRequest) (st : Server)
    (e : PolicyViolation) :
  tool_name request ≠ "get_service_status" →
  validate (policy_engine st) (tool_name request) (arguments request)
  = Raise (PolicyViolationError e) →
  ∃ response st',
    execute_tool request st = (Return response, st')
    ∧ success response = false
    ∧ policy_violation response = true
    ∧ error response = Some (PolicyViolationText (pv_reason e))
    ∧ blocked_reason response = Some (pv_message e)
    ∧ services (cloud_infra st') = services (cloud_infra st)
    ∧ fleet_size (cloud_infra st') = fleet_size (cloud_infra st)
    ∧ execution_log (cloud_infra st') = execution_log (cloud_infra st)
    ∧ unhealthy_services (policy_engine st') = unhealthy_services (policy_engine st)
    ∧ current_mode (policy_engine st') = current_mode (policy_engine st)
    ∧ st' = st.
Proof.
  intros Htool Hdeny. exists (violation_response e), st.
  rewrite (execute_tool_policy_violation _ _ _ Htool Hdeny).
  by repeat split.
Qed.

Lemma denial_has_no_side_effect_witness :
  ∃ response st',
    execute_tool (real_request "restart_service"
                    {["service_name" := VStr "database"]}) cache_incident
    = (Return response, st')
    ∧ success response = false
    ∧ policy_violation response = true
    ∧ error response = Some (PolicyViolationText "Target service is not unhealthy")
    ∧ blocked_reason response
      = Some (MsgServiceIsHealthy (VStr "database")
                (unhealthy_services (policy_engine cache_incident)))
    ∧ services (cloud_infra st') = services (cloud_infra cache_incident)
    ∧ fleet_size (cloud_infra st') = fleet_size (cloud_infra cache_incident)
    ∧ execution_log (cloud_infra st') = execution_log (cloud_infra cache_incident)
    ∧ unhealthy_services (policy_engine st')
      = unhealthy_services (policy_engine cache_incident)
    ∧ current_mode (policy_engine st') = current_mode (policy_engine cache_incident)
    ∧ st' = cache_incident.
Proof.
  apply (denial_has_no_side_effect
           (real_request "restart_service" {["service_name" := VStr "database"]})
           cache_incident
           {| pv_message :=
                MsgServiceIsHealthy (VStr "database")
                  (unhealthy_services (policy_engine cache_incident));
              pv_tool_name := "restart_service";
              pv_mode := "EMERGENCY";
              pv_reason := "Target service is not unhealthy" |}).
  - discriminate.
  - vm_compute. reflexivity.
Defined.

Lemma with_infra_same (st : Server) : with_infra st (cloud_infra st) = st.
Proof. by destruct st. Qed.

Lemma _execute_tool_function_unknown (tool : string)
    (args : gmap string pyval) (infra : CloudInfrastructure) :
  tool ∉ tool_catalog →
  _execute_tool_function tool args infra
  = (Raise (ValueError (UnknownTool tool)), infra).
Proof.
  intros Hnot. unfold _execute_tool_function.
  repeat match goal with
         | |- context [String.eqb tool ?name] =>
             destruct (String.eqb_spec tool name) as [-> | _];
             [exfalso; apply Hnot; by_evaluation |]
         end.
  reflexivity.
Qed.

Lemma real_mode_dispatch (request : ToolRequest) :
  normalised_execution_mode request = "REAL" →
  negb (bool_decide (normalised_execution_mode request ∈ ["REAL"; "SHADOW"])) = false
  ∧ String.eqb (normalised_execution_mode request) "SHADOW" = false.
Proof. intros ->. by vm_compute. Qed.

Lemma shadow_mode_dispatch (request : ToolRequest) :
  normalised_execution_mode request = "SHADOW" →
  negb (bool_decide (normalised_execution_mode request ∈ ["REAL"; "SHADOW"]))
  = false
  ∧ String.eqb (normalised_execution_mode request) "SHADOW" = true.
Proof. intros ->. by vm_compute. Qed.

Lemma invalid_mode_dispatch (request : ToolRequest) :
  normalised_execution_mode request ∉ ["REAL"; "SHADOW"] →
  negb (bool_decide (normalised_execution_mode request ∈ ["REAL"; "SHADOW"]))
  = true.
Proof. intros Hmode. by rewrite (bool_decide_eq_false_2 _ Hmode). Qed.

(** The execution mode is REAL, SHADOW or neither. *)
Lemma execution_mode_cases (request : ToolRequest) :
  normalised_execution_mode request = "REAL"
  ∨ normalised_execution_mode request = "SHADOW"
  ∨ normalised_execution_mode request ∉ ["REAL"; "SHADOW"].
Proof.
  destruct (decide (normalised_execution_mode request = "REAL")); [by left |].
  destruct (decide (normalised_execution_mode request = "SHADOW"));
    [right; by left |].
  right. right. rewrite !elem_of_cons, elem_of_nil. tauto.
Qed.

(** A name outside the catalog is not a mutation-class tool, and the
    simulator has no report of its own for it. *)
Lemma unknown_tool_is_no_modification (tool : string) :
  tool ∉ tool_catalog → _is_modification_tool tool = false.
Proof.
  intros Hunknown. unfold _is_modification_tool.
  apply bool_decide_eq_false_2. intros Hin. apply Hunknown.
  rewrite !elem_of_cons, elem_of_nil in Hin.
  destruct Hin as [-> | [-> | [-> | []]]]; by_evaluation.
Qed.

Lemma simulate_unknown (tool : string) (args : gmap string pyval)
    (infra : CloudInfrastructure) :
  tool ∉ tool_catalog → simulate tool args infra = Return ImpactLow.
Proof.
  intros Hunknown. unfold simulate.
  repeat match goal with
         | |- context [String.eqb tool ?name] =>
             destruct (String.eqb_spec tool name) as [-> | _];
             [exfalso; apply Hunknown; by_evaluation |]
         end.
  reflexivity.
Qed.

(** What [validate] can do with a name outside the catalog. *)
Lemma validate_unknown_tool (pe : PolicyEngine) (tool : string)
    (args : gmap string pyval) :
  tool ∉ tool_catalog →
  validate pe tool args = Return true
  ∨ (∃ e, validate pe tool args = Raise (PolicyViolationError e))
  ∨ validate pe tool args = Raise (KeyError (current_mode pe)).
Proof.
  intros Hunknown. unfold validate, service_specific_check, violation.
  rewrite (unknown_tool_is_no_modification _ Hunknown).
  case_bool_decide; [right; left; by eexists |].
  destruct (modes (policy pe) !! current_mode pe); [| by right; right].
  case_bool_decide; [right; left; by eexists |].
  destruct (negb (bool_decide _)); [right; left; by eexists | by left].
Qed.

(** C7 as the claim states it fails: a tool name outside the catalog is put
    to the whitelist first, and under the NORMAL policy the caller is told
    of a policy violation. *)
Lemma unknown_tool_is_policy_violation :
  ("frobnicate" ∉ tool_catalog)
  ∧ ∃ response,
      execute_tool (real_request "frobnicate" ∅) (Server_init ops_policy)
      = (Return response, Server_init ops_policy)
      ∧ success response = false
      ∧ policy_violation response = true
      ∧ error response = Some (PolicyViolationText "Not in allowed tools list").
Proof.
  split; [by_evaluation |]. eexists. split; [by vm_compute |]. by repeat split.
Qed.

(** C7 (amended). A request naming a tool outside the catalog goes through
    the policy like any other.  When the policy denies it - in particular
    whenever the name is not on the whitelist of the current mode - the
    caller receives a policy violation ([success = false],
    [policy_violation = true]).  It is reported as the execution error
    "Unknown tool" ([success = false], [policy_violation = false]) when, and
    only when, the policy lets the name pass and the request is a REAL
    execution: a SHADOW request that passes is answered with a success that
    carries the default impact report, and any other execution mode is
    refused with status 400.  The server state is unchanged in every case. *)
Theorem unknown_tool_outcome (request : ToolRequest) (st : Server) :
  tool_name request ∉ tool_catalog →
  (execute_tool request st).2 = st
  ∧ (∀ e,
       validate (policy_engine st) (tool_name request) (arguments request)
       = Raise (PolicyViolationError e) →
       (execute_tool request st).1 = Return (violation_response e)
       ∧ policy_violation (violation_response e) = true)
  ∧ (∀ mp,
       modes (policy (policy_engine st)) !! current_mode (policy_engine st)
       = Some mp →
       tool_name request ∉ allowed_tools mp →
       ∃ e, execute_tool request st = (Return (violation_response e), st)
            ∧ policy_violation (violation_response e) = true)
  ∧ (validate (policy_engine st) (tool_name request) (arguments request)
     = Return true →
     (normalised_execution_mode request = "REAL" →
      execute_tool request st
      = (Return (execution_error_response
                   (ValueError (UnknownTool (tool_name request)))), st)
      ∧ success
          (execution_error_response
             (ValueError (UnknownTool (tool_name request)))) = false
      ∧ policy_violation
          (execution_error_response
             (ValueError (UnknownTool (tool_name request)))) = false)
     ∧ (normalised_execution_mode request = "SHADOW" →
        execute_tool request st
        = (Return (success_response (ShadowOutput ImpactLow)), st))
     ∧ (normalised_execution_mode request ∉ ["REAL"; "SHADOW"] →
        execute_tool request st = (Raise (HTTPException 400), st)))
  ∧ (∀ response,
       (execute_tool request st).1 = Return response →
       success response = false →
       policy_violation response = false →
       validate (policy_engine st) (tool_name request) (arguments request)
       = Return true
       ∧ normalised_execution_mode request = "REAL"
       ∧ response
         = execution_error_response
             (ValueError (UnknownTool (tool_name request)))).
Proof.
  intros Hunknown.
  assert (tool_name request ≠ "get_service_status") as Hstatus.
  { intros Heq. apply Hunknown. rewrite Heq. by_evaluation. }
  assert (validate (policy_engine st) (tool_name request) (arguments request)
          = Return true →
          (normalised_execution_mode request = "REAL" →
           execute_tool request st
           = (Return (execution_error_response
                        (ValueError (UnknownTool (tool_name request)))), st))
          ∧ (normalised_execution_mode request = "SHADOW" →
             execute_tool request st
             = (Return (success_response (ShadowOutput ImpactLow)), st))
          ∧ (normalised_execution_mode request ∉ ["REAL"; "SHADOW"] →
             execute_tool request st = (Raise (HTTPException 400), st)))
    as Hpassed.
  { intros Hvalid. unfold execute_tool.
    destruct (String.eqb_spec (tool_name request) "get_service_status");
      [contradiction |].
    rewrite Hvalid. split; [| split].
    - intros Hreal. destruct (real_mode_dispatch _ Hreal) as [-> ->].
      rewrite (_execute_tool_function_unknown _ _ _ Hunknown).
      by rewrite with_infra_same.
    - intros Hshadow. destruct (shadow_mode_dispatch _ Hshadow) as [-> ->].
      by rewrite (simulate_unknown _ _ _ Hunknown).
    - intros Hmode. by rewrite (invalid_mode_dispatch _ Hmode). }
  assert (∀ e,
            validate (policy_engine st) (tool_name request) (arguments request)
            = Raise (PolicyViolationError e) →
            execute_tool request st = (Return (violation_response e), st))
    as Hdenied.
  { intros e He. by apply execute_tool_policy_violation. }
  assert (∀ key,
            validate (policy_engine st) (tool_name request) (arguments request)
            = Raise (KeyError key) →
            execute_tool request st = (Raise (KeyError key), st)) as Hcrash.
  { intros key Hkey. unfold execute_tool.
    destruct (String.eqb_spec (tool_name request) "get_service_status");
      [contradiction |].
    by rewrite Hkey. }
  pose proof (validate_unknown_tool (policy_engine st) (tool_name request)
                (arguments request) Hunknown) as Hcases.
  pose proof (execution_mode_cases request) as Hmodes.
  split; [| split; [| split; [| split]]].
  - destruct Hcases as [Hvalid | [[e He] | Hkey]].
    + destruct (Hpassed Hvalid) as (Hreal & Hshadow & Hother).
      destruct Hmodes as [Hm | [Hm | Hm]];
        [rewrite (Hreal Hm) | rewrite (Hshadow Hm) | rewrite (Hother Hm)];
        reflexivity.
    + by rewrite (Hdenied e He).
    + by rewrite (Hcrash _ Hkey).
  - intros e He. by rewrite (Hdenied e He).
  - intros mp Hmode Hallowed.
    destruct (not_whitelisted_is_violation (policy_engine st) _ mp
                (arguments request) Hmode Hallowed) as [e He].
    exists e. by rewrite (Hdenied e He).
  - intros Hvalid. destruct (Hpassed Hvalid) as (Hreal & Hshadow & Hother).
    split; [| by split]. intros Hm. by rewrite (Hreal Hm).
  - intros response Hanswer Hfailed Hnoviolation.
    destruct Hcases as [Hvalid | [[e He] | Hkey]].
    + destruct (Hpassed Hvalid) as (Hreal & Hshadow & Hother).
      destruct Hmodes as [Hm | [Hm | Hm]].
      * rewrite (Hreal Hm) in Hanswer. simpl in Hanswer.
        injection Hanswer as <-. by repeat split.
      * rewrite (Hshadow Hm) in Hanswer. simpl in Hanswer.
        injection Hanswer as <-. discriminate Hfailed.
      * rewrite (Hother Hm) in Hanswer. discriminate Hanswer.
    + rewrite (Hdenied e He) in Hanswer. simpl in Hanswer.
      injection Hanswer as <-. discriminate Hnoviolation.
    + rewrite (Hcrash _ Hkey) in Hanswer. discriminate Hanswer.
Qed.

Lemma unknown_tool_outcome_witness :
  (∃ e, execute_tool (real_request "frobnicate" ∅) (Server_init ops_policy)
        = (Return (violation_response e), Server_init ops_policy)
        ∧ policy_violation (violation_response e) = true)
  ∧ (execute_tool (real_request "frobnicate" ∅) (Server_init lenient_policy)
     = (Return (execution_error_response (ValueError (UnknownTool "frobnicate"))),
        Server_init lenient_policy)
     ∧ success
         (execution_error_response (ValueError (UnknownTool "frobnicate")))
       = false
     ∧ policy_violation
         (execution_error_response (ValueError (UnknownTool "frobnicate")))
       = false)
  ∧ execute_tool shadow_frobnicate (Server_init lenient_policy)
    = (Return (success_response (ShadowOutput ImpactLow)),
       Server_init lenient_policy)
  ∧ (validate (policy_engine (Server_init lenient_policy)) "frobnicate" ∅
     = Return true
     ∧ normalised_execution_mode (real_request "frobnicate" ∅) = "REAL"
     ∧ execution_error_response (ValueError (UnknownTool "frobnicate"))
       = execution_error_response (ValueError (UnknownTool "frobnicate"))).
Proof.
  destruct (unknown_tool_outcome (real_request "frobnicate" ∅)
              (Server_init ops_policy) ltac:(by_evaluation))
    as (_ & _ & Hdenied & _).
  destruct (unknown_tool_outcome (real_request "frobnicate" ∅)
              (Server_init lenient_policy) ltac:(by_evaluation))
    as (_ & _ & _ & Hpassed & Honly).
  destruct (unknown_tool_outcome shadow_frobnicate
              (Server_init lenient_policy) ltac:(by_evaluation))
    as (_ & _ & _ & Hshadow & _).
  split; [| split; [| split]].
  - apply (Hdenied normal_policy); [vm_compute; reflexivity | by_evaluation].
  - apply Hpassed; vm_compute; reflexivity.
  - apply Hshadow; vm_compute; reflexivity.
  - apply (Honly (execution_error_response (ValueError (UnknownTool "frobnicate"))));
      vm_compute; reflexivity.
Defined.

(** ** Restart and reconciliation *)

Lemma restart_service_success_inv (infra infra' : CloudInfrastructure)
    (R service old : string) :
  restart_service infra (VStr R) = (Return (RestartSuccess service old), infra') →
  service = R
  ∧ services infra !! R = Some old
  ∧ services infra' = <[R := "healthy"]> (services infra).
Proof.
  unfold restart_service. simpl services.
  destruct (services infra !! R) as [health |] eqn:Hlook; [| discriminate].
  intros [= <- <- <-]. by repeat split.
Qed.

(** A successful response that carries the restart dictionary can only come
    from the REAL execution path: [validate] returned, the tool ran, and the
    reconciliation was applied to the state the tool left behind. *)
Lemma execute_restart_success_inv (request : ToolRequest) (st st' : Server)
    (R old : string) :
  tool_name request = "restart_service" →
  arguments request !! "service_name" = Some (VStr R) →
  execute_tool request st
  = (Return (success_response (ToolOutput (RestartSuccess R old))), st') →
  (∃ b, validate (policy_engine st) "restart_service" (arguments request)
        = Return b)
  ∧ ∃ infra',
      restart_service (cloud_infra st) (VStr R)
      = (Return (RestartSuccess R old), infra')
      ∧ st' = (reconcile_restart (VStr R) (with_infra st infra')).2.
Proof.
  destruct request as [tool args mode]. simpl. intros -> Hget.
  unfold execute_tool. simpl tool_name. simpl arguments. simpl String.eqb.
  cbv iota.
  destruct (validate (policy_engine st) "restart_service" args) as [b | e].
  2: { destruct e; intros [= ]. }
  destruct (negb (bool_decide (_ ∈ _))); [discriminate |].
  destruct (String.eqb _ "SHADOW").
  { destruct (simulate _ _ _); intros [= ]. }
  unfold _execute_tool_function. simpl String.eqb. cbv iota.
  rewrite (dict_get_some _ _ _ Hget).
  destruct (accepts _ _ _); [| discriminate].
  destruct (restart_service (cloud_infra st) (VStr R)) as [r infra'] eqn:Hrun.
  destruct r as [result | e]; simpl type_error_to_value_error.
  2: { destruct e; intros [= ]. }
  cbv beta iota. simpl andb.
  destruct (mentions_success result) eqn:Hmentions.
  - unfold reconcile_restart.
    destruct (truthy (VStr R)) eqn:Htruthy; intros [= -> <-];
      (split; [by eexists |]); exists infra'; (split; [exact Hrun |]);
      reflexivity.
  - intros [= -> <-]. discriminate Hmentions.
Qed.

Lemma set_service_health_lookup (infra : CloudInfrastructure)
    (service status : string) :
  is_Some (services infra !! service) →
  services (set_service_health infra service status)
  = <[service := status]> (services infra).
Proof.
  intros [old Hold]. unfold set_service_health. by rewrite Hold.
Qed.

(** C9. In EMERGENCY mode with the restriction enabled, when a restart of
    [R] has been allowed and has succeeded, [R] has left the unhealthy set,
    its health is "healthy", and a restart request for [R] that comes next
    is denied with "Target service is not unhealthy", leaving the state
    alone. *)
Theorem recovery_closes_gate (st st' : Server) (request again : ToolRequest)
    (mp : ModePolicy) (R old : string) :
  current_mode (policy_engine st) = "EMERGENCY" →
  modes (policy (policy_engine st)) !! "EMERGENCY" = Some mp →
  restrictions_enabled mp = true →
  tool_name request = "restart_service" →
  arguments request !! "service_name" = Some (VStr R) →
  tool_name again = "restart_service" →
  arguments again !! "service_name" = Some (VStr R) →
  execute_tool request st
  = (Return (success_response (ToolOutput (RestartSuccess R old))), st') →
  (R ∉ unhealthy_services (policy_engine st'))
  ∧ services (cloud_infra st') !! R = Some "healthy"
  ∧ execute_tool again st'
    = (Return (violation_response
                 {| pv_message :=
                      MsgServiceIsHealthy (VStr R)
                        (unhealthy_services (policy_engine st'));
                    pv_tool_name := "restart_service";
                    pv_mode := "EMERGENCY";
                    pv_reason := "Target service is not unhealthy" |}), st').
Proof.
  intros Hmode Hmp Hen Htool Hget Htool2 Hget2 Hrun.
  destruct (execute_restart_success_inv _ _ _ _ _ Htool Hget Hrun)
    as ([b Hvalid] & infra' & Hrestart & ->).
  destruct (validate_return_inv _ _ _ _ Hvalid) as (mp' & Hpass & Hcheck).
  assert (mp' = mp) as ->.
  { destruct Hpass as (_ & Hlook & _). rewrite Hmode in Hlook. congruence. }
  assert (truthy (VStr R) = true) as Htruthy.
  { unfold service_specific_check in Hcheck.
    replace (_is_modification_tool "restart_service") with true in Hcheck by done.
    rewrite (dict_get_some _ _ _ Hget) in Hcheck.
    by destruct (truthy (VStr R)). }
  destruct (restart_service_success_inv _ _ _ _ _ Hrestart) as (_ & Hold & Hsvc).
  unfold reconcile_restart. rewrite Htruthy.
  set (st' := {| policy_engine := mark_service_healthy (policy_engine st) R;
                 cloud_infra := set_service_health infra' R "healthy" |}).
  assert (R ∉ unhealthy_services (policy_engine st')) as Hout.
  { simpl. rewrite elem_of_difference, elem_of_singleton. by intros [_ ?]. }
  split; [exact Hout |]. split.
  { simpl. rewrite set_service_health_lookup.
    - by rewrite lookup_insert_eq.
    - rewrite Hsvc, lookup_insert_eq. by eexists. }
  apply execute_tool_policy_violation.
  { rewrite Htool2. discriminate. }
  rewrite Htool2.
  assert (passes_list_checks (policy_engine st') "restart_service" mp) as Hpass'.
  { exact Hpass. }
  rewrite (validate_past_list_checks _ _ _ _ Hpass').
  unfold service_specific_check.
  replace (_is_modification_tool "restart_service") with true by done.
  rewrite (dict_get_some _ _ _ Hget2), Htruthy. simpl negb. cbv iota.
  replace (current_mode (policy_engine st')) with "EMERGENCY" by (by rewrite <- Hmode).
  rewrite Hen. simpl andb. cbv iota.
  rewrite health_gate_string. rewrite bool_decide_eq_false_2 by exact Hout.
  unfold violation. by rewrite <- Hmode.
Qed.

Lemma recovery_closes_gate_witness :
  ("cache" ∉ unhealthy_services
     (policy_engine
        (execute_tool (real_request "restart_service"
                         {["service_name" := VStr "cache"]}) cache_incident).2))
  ∧ services
      (cloud_infra
         (execute_tool (real_request "restart_service"
                          {["service_name" := VStr "cache"]}) cache_incident).2)
    !! "cache" = Some "healthy"
  ∧ execute_tool (real_request "restart_service" {["service_name" := VStr "cache"]})
      (execute_tool (real_request "restart_service"
                       {["service_name" := VStr "cache"]}) cache_incident).2
    = (Return (violation_response
                 {| pv_message :=
                      MsgServiceIsHealthy (VStr "cache")
                        (unhealthy_services
                           (policy_engine
                              (execute_tool
                                 (real_request "restart_service"
                                    {["service_name" := VStr "cache"]})
                                 cache_incident).2));
                    pv_tool_name := "restart_service";
                    pv_mode := "EMERGENCY";
                    pv_reason := "Target service is not unhealthy" |}),
       (execute_tool (real_request "restart_service"
                        {["service_name" := VStr "cache"]}) cache_incident).2).
Proof.
  apply (recovery_closes_gate cache_incident _
           (real_request "restart_service" {["service_name" := VStr "cache"]})
           (real_request "restart_service" {["service_name" := VStr "cache"]})
           emergency_policy "cache" "critical").
  - reflexivity.
  - vm_compute. reflexivity.
  - reflexivity.
  - reflexivity.
  - reflexivity.
  - reflexivity.
  - reflexivity.
  - vm_compute. reflexivity.
Defined.

(** ** Status observation *)

Lemma observe_other (pe : PolicyEngine) (svc health other : string) :
  other ≠ svc →
  other ∈ unhealthy_services (observe pe svc health)
  ↔ other ∈ unhealthy_services pe.
Proof.
  intros Hne. unfold observe.
  destruct (is_unhealthy health); [| destruct (String.eqb health "healthy")];
    simpl; [| | done].
  - rewrite elem_of_union, elem_of_singleton. tauto.
  - rewrite elem_of_difference, elem_of_singleton. tauto.
Qed.

Lemma observe_self (pe : PolicyEngine) (svc health : string) :
  svc ∈ unhealthy_services (observe pe svc health)
  ↔ if is_unhealthy health then True
    else if String.eqb health "healthy" then False
    else svc ∈ unhealthy_services pe.
Proof.
  unfold observe.
  destruct (is_unhealthy health); [| destruct (String.eqb health "healthy")];
    simpl; [| | done].
  - rewrite elem_of_union, elem_of_singleton. tauto.
  - rewrite elem_of_difference, elem_of_singleton. tauto.
Qed.

Lemma observe_keeps_policy (pe : PolicyEngine) (svc health : string) :
  policy (observe pe svc health) = policy pe
  ∧ current_mode (observe pe svc health) = current_mode pe.
Proof.
  unfold observe.
  by destruct (is_unhealthy health); [| destruct (String.eqb health "healthy")].
Qed.

(** The loop of [_update_unhealthy_services] over the whole health map. *)
Lemma observe_all_spec (pe : PolicyEngine) (m : gmap string string) :
  let pe' := map_fold (λ svc health pe, observe pe svc health) pe m in
  policy pe' = policy pe
  ∧ current_mode pe' = current_mode pe
  ∧ ∀ svc, svc ∈ unhealthy_services pe'
           ↔ observed_in m (unhealthy_services pe) svc.
Proof.
  simpl.
  apply (map_fold_weak_ind
           (λ r m, policy r = policy pe ∧ current_mode r = current_mode pe
                   ∧ ∀ svc, svc ∈ unhealthy_services r
                            ↔ observed_in m (unhealthy_services pe) svc)).
  - repeat split; unfold observed_in in *; by rewrite lookup_empty in *.
  - intros i x m' r Hfresh (Hpol & Hmode & IH).
    destruct (observe_keeps_policy r i x) as [Hp Hm].
    split; [congruence |]. split; [congruence |].
    intros svc. unfold observed_in. destruct (decide (svc = i)) as [-> | Hne].
    + rewrite lookup_insert_eq, observe_self.
      specialize (IH i). unfold observed_in in IH. rewrite Hfresh in IH.
      destruct (is_unhealthy x); [done |].
      by destruct (String.eqb x "healthy").
    + rewrite lookup_insert_ne by done. rewrite (observe_other _ _ _ _ Hne).
      apply IH.
Qed.

Lemma get_service_status_returns (infra : CloudInfrastructure) (sn : pyval) :
  truthy sn = false ∨ hashable sn = true →
  ∃ result,
    get_service_status infra sn
    = (Return result, _log_action infra "get_service_status" [("service", sn)]).
Proof.
  intros Hsn. unfold get_service_status.
  destruct (truthy sn) eqn:Htruthy; [| by eexists].
  destruct Hsn as [? | Hhash]; [discriminate |].
  destruct sn as [| b | n | s | l | d]; try discriminate; try by eexists.
  destruct (services _ !! s); by eexists.
Qed.

(** Apart from the status check and a restart, no tool call writes to the
    policy engine. *)
Lemma execute_tool_keeps_registry (request : ToolRequest) (st : Server) :
  tool_name request ≠ "get_service_status" →
  tool_name request ≠ "restart_service" →
  policy_engine (execute_tool request st).2 = policy_engine st.
Proof.
  intros Hstatus Hrestart. unfold execute_tool.
  destruct (String.eqb_spec (tool_name request) "get_service_status");
    [contradiction |].
  destruct (validate _ _ _) as [b | e]; [| by destruct e].
  destruct (negb _); [done |].
  destruct (String.eqb _ "SHADOW"); [by destruct (simulate _ _ _) |].
  destruct (_execute_tool_function _ _ _) as [r infra].
  destruct r as [result | e]; [| done].
  by destruct (String.eqb_spec (tool_name request) "restart_service");
    [contradiction |].
Qed.

(** Once [validate] has returned for a REAL request, the response is either
    the tool's output or an execution error, never a policy violation. *)
Lemma execute_tool_after_validate (request : ToolRequest) (st : Server) (b : bool) :
  tool_name request ≠ "get_service_status" →
  validate (policy_engine st) (tool_name request) (arguments request) = Return b →
  normalised_execution_mode request = "REAL" →
  ∃ response st',
    execute_tool request st = (Return response, st')
    ∧ policy_violation response = false.
Proof.
  intros Hstatus Hvalid Hreal.
  destruct (real_mode_dispatch _ Hreal) as [Hin Hshadow].
  unfold execute_tool.
  destruct (String.eqb_spec (tool_name request) "get_service_status");
    [contradiction |].
  rewrite Hvalid, Hin, Hshadow.
  destruct (_execute_tool_function _ _ _) as [r infra].
  destruct r as [result | e]; [| by eexists _, _].
  match goal with
  | |- context [if ?c then reconcile_restart ?sn ?s else ?d] =>
      destruct (if c then reconcile_restart sn s else d) as [[[] | e] st'']
  end; by eexists _, _.
Qed.

(** A tool that is not on the mutation-class list has no impact report of
    its own: the simulator answers with the default one. *)
Lemma simulate_non_modification (tool : string) (args : gmap string pyval)
    (infra : CloudInfrastructure) :
  _is_modification_tool tool = false → simulate tool args infra = Return ImpactLow.
Proof.
  intros Hmod. unfold simulate.
  repeat match goal with
         | |- context [String.eqb tool ?name] =>
             destruct (String.eqb_spec tool name) as [-> | _];
             [discriminate Hmod |]
         end.
  reflexivity.
Qed.

(** [read_logs] writes its log entry whatever [lines] is. *)
Lemma read_logs_state (infra : CloudInfrastructure) (lines : pyval) :
  (read_logs infra lines).2 = _log_action infra "read_logs" [("lines", lines)].
Proof. unfold read_logs. by destruct lines. Qed.

(** The only exception [read_logs] raises is the TypeError of the slice. *)
Lemma read_logs_raises (infra : CloudInfrastructure) (lines : pyval) (e : exn) :
  (read_logs infra lines).1 = Raise e → e = TypeError.
Proof. unfold read_logs. destruct lines; simpl; congruence. Qed.

(** A REAL request that has passed [validate], for a tool other than the
    status check and the restart: the tool function is run, its result is the
    answer and its infrastructure the new state. *)
Lemma execute_tool_real_run (request : ToolRequest) (st : Server) (b : bool) :
  tool_name request ≠ "get_service_status" →
  tool_name request ≠ "restart_service" →
  validate (policy_engine st) (tool_name request) (arguments request) = Return b →
  normalised_execution_mode request = "REAL" →
  execute_tool request st
  = (match (_execute_tool_function (tool_name request) (arguments request)
              (cloud_infra st)).1 with
     | Return result => Return (success_response (ToolOutput result))
     | Raise e => Return (execution_error_response e)
     end,
     with_infra st
       (_execute_tool_function (tool_name request) (arguments request)
          (cloud_infra st)).2).
Proof.
  intros Hstatus Hrestart Hvalid Hreal.
  destruct (real_mode_dispatch _ Hreal) as [Hin Hshadow].
  unfold execute_tool.
  destruct (String.eqb_spec (tool_name request) "get_service_status");
    [contradiction |].
  rewrite Hvalid, Hin, Hshadow.
  destruct (_execute_tool_function _ _ _) as [r infra]. simpl.
  destruct r as [result | e]; [| done].
  by destruct (String.eqb_spec (tool_name request) "restart_service");
    [contradiction |].
Qed.

(** C6 as the claim states it fails: [read_logs] is not executed ahead of
    the policy.  Under a policy document whose NORMAL mode whitelists the
    status check only, the gateway answers a [read_logs] request with a
    policy violation and runs nothing.  And under a policy document that
    whitelists [read_logs] in every mode, a SHADOW [read_logs] request is
    not executed either: the answer is the impact report and the execution
    log stays empty. *)
Lemma read_logs_denied_when_not_whitelisted :
  (∃ response,
     execute_tool (real_request "read_logs" ∅) (Server_init status_only_policy)
     = (Return response, Server_init status_only_policy)
     ∧ success response = false
     ∧ policy_violation response = true
     ∧ error response = Some (PolicyViolationText "Not in allowed tools list"))
  ∧ execute_tool shadow_read_logs (Server_init ops_policy)
    = (Return (success_response (ShadowOutput ImpactLow)), Server_init ops_policy)
  ∧ execution_log (cloud_infra (Server_init ops_policy)) = [].
Proof.
  split; [| split; [by vm_compute | reflexivity]].
  eexists. split; [by vm_compute |]. by repeat split.
Qed.

(** C6 (amended). Only [get_service_status] is executed without asking the
    policy: in every mode and under every policy document a well-formed
    status request succeeds with the result of the status tool, and the
    unhealthy set is then updated from the health map (every service when
    [service_name] is None or absent, the named one when it is a known
    name), so that an observed critical or degraded service is in the set
    and an observed healthy one is not.
    [read_logs] and [list_services] are put to [validate] like any other
    tool: they are answered with a policy violation whenever the policy
    denies them, in particular when the current mode does not whitelist
    them.  When the policy lets them pass and the request is a REAL
    execution they are run: the call is written to the execution log and
    the answer is a success carrying the tool's result (the error "Invalid
    arguments" when the arguments do not fit the tool's signature, or when
    [lines] cannot be used as a slice bound).  A SHADOW request that passes
    is answered with the default impact report and runs nothing, and any
    other execution mode is refused with status 400.  In no case do they
    write to the policy engine. *)
Theorem status_check_bypasses_policy (request : ToolRequest) (st : Server) :
  (tool_name request = "get_service_status" →
   accepts ∅ {["service_name"]} (arguments request) = true →
   truthy (dict_get (arguments request) "service_name") = false
   ∨ hashable (dict_get (arguments request) "service_name") = true →
   ∃ result st',
     execute_tool request st
     = (Return (success_response (ToolOutput result)), st')
     ∧ (get_service_status (cloud_infra st)
          (dict_get (arguments request) "service_name")).1 = Return result
     ∧ st' = _update_unhealthy_services
               (dict_get (arguments request) "service_name")
               (with_infra st
                  (_log_action (cloud_infra st) "get_service_status"
                     [("service", dict_get (arguments request) "service_name")]))
     ∧ ∀ svc health,
         services (cloud_infra st) !! svc = Some health →
         dict_get (arguments request) "service_name" = VNone
         ∨ dict_get (arguments request) "service_name" = VStr svc →
         (is_unhealthy health = true →
          svc ∈ unhealthy_services (policy_engine st'))
         ∧ (health = "healthy" →
            svc ∉ unhealthy_services (policy_engine st')))
  ∧ (tool_name request ∈ ["read_logs"; "list_services"] →
     (∀ e,
        validate (policy_engine st) (tool_name request) (arguments request)
        = Raise (PolicyViolationError e) →
        execute_tool request st = (Return (violation_response e), st))
     ∧ (∀ mp,
          modes (policy (policy_engine st)) !! current_mode (policy_engine st)
          = Some mp →
          tool_name request ∉ allowed_tools mp →
          ∃ e, execute_tool request st = (Return (violation_response e), st))
     ∧ (validate (policy_engine st) (tool_name request) (arguments request)
        = Return true →
        normalised_execution_mode request = "REAL" →
        ∃ response st',
          execute_tool request st = (Return response, st')
          ∧ policy_violation response = false)
     ∧ policy_engine (execute_tool request st).2 = policy_engine st
     ∧ (validate (policy_engine st) (tool_name request) (arguments request)
        = Return true →
        (normalised_execution_mode request = "REAL" →
         (tool_name request = "list_services" →
          execute_tool request st
          = if accepts ∅ ∅ (arguments request) then
              (Return (success_response
                         (ToolOutput
                            (ListServices (service_names (cloud_infra st))
                               (size (services (cloud_infra st)))))),
               with_infra st (_log_action (cloud_infra st) "list_services" []))
            else
              (Return (execution_error_response
                         (ValueError (InvalidArguments "list_services"))), st))
         ∧ (tool_name request = "read_logs" →
            execute_tool request st
            = if accepts ∅ {["lines"]} (arguments request) then
                (match (read_logs (cloud_infra st)
                          (default (VInt 10) (arguments request !! "lines"))).1
                 with
                 | Return result => Return (success_response (ToolOutput result))
                 | Raise _ =>
                     Return (execution_error_response
                               (ValueError (InvalidArguments "read_logs")))
                 end,
                 with_infra st
                   (_log_action (cloud_infra st) "read_logs"
                      [("lines",
                        default (VInt 10) (arguments request !! "lines"))]))
              else
                (Return (execution_error_response
                           (ValueError (InvalidArguments "read_logs"))), st))
         ∧ (tool_name request = "read_logs" →
            ∀ n, default (VInt 10) (arguments request !! "lines") = VInt n →
                 ∃ shown total,
                   (read_logs (cloud_infra st) (VInt n)).1
                   = Return (LogLines shown total
                               (size (services (cloud_infra st))))))
        ∧ (normalised_execution_mode request = "SHADOW" →
           execute_tool request st
           = (Return (success_response (ShadowOutput ImpactLow)), st))
        ∧ (normalised_execution_mode request ∉ ["REAL"; "SHADOW"] →
           execute_tool request st = (Raise (HTTPException 400), st)))).
Proof.
  split.
  - intros Htool Hargs Hsn.
    set (sn := dict_get (arguments request) "service_name") in *.
    destruct (get_service_status_returns (cloud_infra st) sn Hsn)
      as [result Hrun].
    exists result. eexists. split; [| split; [| split; [reflexivity |]]].
    + unfold execute_tool, _execute_tool_function. rewrite Htool.
      simpl String.eqb. cbv iota. rewrite Hargs. fold sn. rewrite Hrun.
      reflexivity.
    + by rewrite Hrun.
    + intros svc health Hlook Hwhich.
      unfold _update_unhealthy_services. simpl.
      destruct Hwhich as [-> | ->].
      * destruct (observe_all_spec (policy_engine st) (services (cloud_infra st)))
          as (_ & _ & Hspec).
        simpl in Hspec. rewrite Hspec. unfold observed_in. rewrite Hlook.
        split.
        -- by intros ->.
        -- intros ->. by vm_compute.
      * rewrite Hlook, observe_self. split.
        -- by intros ->.
        -- intros ->. by vm_compute.
  - intros Htool.
    assert (tool_name request ≠ "get_service_status"
            ∧ tool_name request ≠ "restart_service"
            ∧ _is_modification_tool (tool_name request) = false)
      as (Hstatus & Hrestart & Hmod).
    { rewrite !elem_of_cons, elem_of_nil in Htool.
      destruct Htool as [-> | [-> | []]]; by repeat split. }
    split; [| split; [| split; [| split]]].
    + intros e He. by apply execute_tool_policy_violation.
    + intros mp Hmode Hallowed.
      destruct (not_whitelisted_is_violation (policy_engine st) _ mp
                  (arguments request) Hmode Hallowed) as [e He].
      exists e. by apply execute_tool_policy_violation.
    + intros Hvalid Hreal. by eapply execute_tool_after_validate.
    + by apply execute_tool_keeps_registry.
    + intros Hvalid. split; [| split].
      * intros Hreal.
        rewrite (execute_tool_real_run _ _ _ Hstatus Hrestart Hvalid Hreal).
        split; [| split].
        -- intros Hlist. unfold _execute_tool_function. rewrite Hlist.
           simpl String.eqb. cbv iota.
           destruct (accepts ∅ ∅ (arguments request)); simpl;
             [reflexivity | by rewrite with_infra_same].
        -- intros Hlogs. unfold _execute_tool_function. rewrite Hlogs.
           simpl String.eqb. cbv iota.
           destruct (accepts ∅ {["lines"]} (arguments request));
             [| simpl; by rewrite with_infra_same].
           pose proof (read_logs_state (cloud_infra st)
                         (default (VInt 10) (arguments request !! "lines")))
             as Hstate.
           pose proof (read_logs_raises (cloud_infra st)
                         (default (VInt 10) (arguments request !! "lines")))
             as Hraises.
           destruct (read_logs _ _) as [r infra]. simpl in *. subst infra.
           destruct r as [result | e]; [reflexivity |].
           by rewrite (Hraises e eq_refl).
        -- intros _ n _. unfold read_logs. simpl. by eexists _, _.
      * intros Hshadow. unfold execute_tool.
        destruct (String.eqb_spec (tool_name request) "get_service_status");
          [contradiction |].
        rewrite Hvalid.
        destruct (shadow_mode_dispatch _ Hshadow) as [-> ->].
        by rewrite (simulate_non_modification _ _ _ Hmod).
      * intros Hmode. unfold execute_tool.
        destruct (String.eqb_spec (tool_name request) "get_service_status");
          [contradiction |].
        rewrite Hvalid. by rewrite (invalid_mode_dispatch _ Hmode).
Qed.

Lemma status_check_bypasses_policy_witness :
  (∃ result st',
     execute_tool (real_request "get_service_status" ∅) cache_incident
     = (Return (success_response (ToolOutput result)), st')
     ∧ (get_service_status (cloud_infra cache_incident)
          (dict_get (arguments (real_request "get_service_status" ∅))
             "service_name")).1 = Return result
     ∧ st' = _update_unhealthy_services
               (dict_get (arguments (real_request "get_service_status" ∅))
                  "service_name")
               (with_infra cache_incident
                  (_log_action (cloud_infra cache_incident) "get_service_status"
                     [("service",
                       dict_get (arguments (real_request "get_service_status" ∅))
                         "service_name")]))
     ∧ ∀ svc health,
         services (cloud_infra cache_incident) !! svc = Some health →
         dict_get (arguments (real_request "get_service_status" ∅)) "service_name"
         = VNone
         ∨ dict_get (arguments (real_request "get_service_status" ∅)) "service_name"
           = VStr svc →
         (is_unhealthy health = true →
          svc ∈ unhealthy_services (policy_engine st'))
         ∧ (health = "healthy" →
            svc ∉ unhealthy_services (policy_engine st')))
  ∧ (∃ e, execute_tool (real_request "read_logs" ∅)
            (Server_init status_only_policy)
          = (Return (violation_response e), Server_init status_only_policy))
  ∧ execute_tool (real_request "list_services" ∅) (Server_init ops_policy)
    = (Return (success_response
                 (ToolOutput
                    (ListServices
                       (service_names (cloud_infra (Server_init ops_policy)))
                       (size (services (cloud_infra (Server_init ops_policy))))))),
       with_infra (Server_init ops_policy)
         (_log_action (cloud_infra (Server_init ops_policy)) "list_services" []))
  ∧ execute_tool shadow_read_logs (Server_init ops_policy)
    = (Return (success_response (ShadowOutput ImpactLow)), Server_init ops_policy).
Proof.
  split; [| split; [| split]].
  - apply (proj1 (status_check_bypasses_policy
                    (real_request "get_service_status" ∅) cache_incident)).
    + reflexivity.
    + vm_compute. reflexivity.
    + left. reflexivity.
  - destruct (proj2 (status_check_bypasses_policy
                       (real_request "read_logs" ∅)
                       (Server_init status_only_policy)))
      as (_ & Hdenied & _).
    + by_evaluation.
    + apply (Hdenied {| description := "Status only";
                        allowed_tools := ["get_service_status"];
                        blocked_tools := [];
                        rationale := "Status only";
                        service_restrictions := None |}).
      * vm_compute. reflexivity.
      * by_evaluation.
  - destruct (proj2 (status_check_bypasses_policy
                       (real_request "list_services" ∅)
                       (Server_init ops_policy)))
      as (_ & _ & _ & _ & Hpassed).
    + by_evaluation.
    + destruct Hpassed as (Hreal & _); [vm_compute; reflexivity |].
      destruct Hreal as (Hlist & _); [vm_compute; reflexivity |].
      rewrite (Hlist eq_refl). reflexivity.
  - destruct (proj2 (status_check_bypasses_policy shadow_read_logs
                       (Server_init ops_policy)))
      as (_ & _ & _ & _ & Hpassed).
    + by_evaluation.
    + destruct Hpassed as (_ & Hshadow & _); [vm_compute; reflexivity |].
      apply Hshadow. vm_compute. reflexivity.
Defined.

(** * The two health structures *)

Section HealthSync.
Implicit Types (m : gmap string string) (st : Server).
Implicit Types (infra : CloudInfrastructure) (svc service status : string).

Lemma elem_of_unhealthy_of m svc :
  svc ∈ unhealthy_of m ↔ ∃ health, m !! svc = Some health ∧ is_unhealthy health = true.
Proof.
  unfold unhealthy_of. rewrite elem_of_dom. unfold is_Some.
  setoid_rewrite map_lookup_filter_Some. simpl. reflexivity.
Qed.

Lemma unhealthy_of_insert m svc status :
  unhealthy_of (<[svc := status]> m)
  = if is_unhealthy status then {[svc]} ∪ unhealthy_of m
    else unhealthy_of m ∖ {[svc]}.
Proof.
  apply set_eq. intros x. destruct (is_unhealthy status) eqn:Hstatus.
  - rewrite elem_of_union, elem_of_singleton, !elem_of_unhealthy_of.
    destruct (decide (x = svc)) as [-> | Hne].
    + rewrite lookup_insert_eq. split; [by left |]. intros _. by exists status.
    + rewrite lookup_insert_ne by done. split; [by right |]. by intros [? | ?].
  - rewrite elem_of_difference, elem_of_singleton, !elem_of_unhealthy_of.
    destruct (decide (x = svc)) as [-> | Hne].
    + rewrite lookup_insert_eq. split; [| by intros [_ ?]].
      intros (h & [= <-] & ?). congruence.
    + rewrite lookup_insert_ne by done. split; [by split | by intros [? _]].
Qed.

Lemma unhealthy_of_unknown m svc :
  m !! svc = None → unhealthy_of m ∖ {[svc]} = unhealthy_of m.
Proof.
  intros Hnone. apply set_eq. intros x.
  rewrite elem_of_difference, elem_of_singleton, elem_of_unhealthy_of.
  split; [tauto |]. intros (h & Hx & Hh). split; [by exists h |].
  intros ->. congruence.
Qed.

Lemma services_set_service_health infra service status :
  services (set_service_health infra service status)
  = match services infra !! service with
    | Some _ => <[service := status]> (services infra)
    | None => services infra
    end.
Proof. unfold set_service_health. by destruct (services infra !! service). Qed.

(** The server starts with the two structures in agreement. *)
Lemma health_sync_init (p : Policy) : health_sync (Server_init p).
Proof. unfold health_sync. simpl. symmetry. by_evaluation. Qed.

(** An incident on a service the infrastructure knows keeps them in
    agreement. *)
Lemma health_sync_simulate_incident st service status :
  is_Some (services (cloud_infra st) !! service) →
  health_sync st →
  health_sync (simulate_incident service status st).2.
Proof.
  intros [old Hold] Hsync. unfold simulate_incident.
  set (infra := set_service_health (cloud_infra st) service status).
  assert (services infra = <[service := status]> (services (cloud_infra st)))
    as Hsvc.
  { unfold infra. by rewrite services_set_service_health, Hold. }
  assert (health_sync
            {| policy_engine :=
                 if is_unhealthy status
                 then register_unhealthy_service (policy_engine st) service
                 else mark_service_healthy (policy_engine st) service;
               cloud_infra := infra |}) as Hgoal.
  { unfold health_sync in *. simpl. rewrite Hsvc, unhealthy_of_insert.
    destruct (is_unhealthy status); simpl; by rewrite Hsync. }
  by destruct (services infra !! service).
Qed.

(** The manual fix keeps them in agreement, known service or not. *)
Lemma health_sync_fix_service st service :
  health_sync st → health_sync (fix_service service st).2.
Proof.
  unfold health_sync, fix_service. simpl. intros Hsync.
  rewrite services_set_service_health, Hsync.
  destruct (services (cloud_infra st) !! service) eqn:Hlook.
  - by rewrite unhealthy_of_insert.
  - by rewrite unhealthy_of_unknown.
Qed.

Lemma health_sync_set_mode st mode :
  health_sync st → health_sync (set_mode_endpoint mode st).2.
Proof.
  unfold health_sync, set_mode_endpoint, set_mode.
  by destruct (modes _ !! mode).
Qed.

End HealthSync.

Section GatewaySync.
Implicit Types (st : Server) (infra : CloudInfrastructure).
Implicit Types (args : gmap string pyval) (request : ToolRequest).

(** What running a tool does to the health map: nothing, except for a
    restart that succeeds. *)
Lemma execute_tool_function_services (tool : string) args infra :
  services (_execute_tool_function tool args infra).2 = services infra
  ∨ (tool = "restart_service"
     ∧ ∃ R old,
         dict_get args "service_name" = VStr R
         ∧ (_execute_tool_function tool args infra).1
           = Return (RestartSuccess R old)
         ∧ services (_execute_tool_function tool args infra).2
           = <[R := "healthy"]> (services infra)).
Proof.
  unfold _execute_tool_function.
  repeat match goal with
         | |- context [String.eqb tool ?name] =>
             destruct (String.eqb_spec tool name) as [-> | _]
         end;
    try (destruct (accepts _ _ _); [| by left]).
  - left. unfold get_service_status.
    destruct (truthy _); [| done].
    destruct (dict_get args "service_name"); try done.
    by destruct (services _ !! s).
  - left. unfold read_logs. by destruct (default _ _).
  - unfold restart_service.
    destruct (dict_get args "service_name") as [| b | n | s | l | d];
      try by left.
    simpl services. destruct (services infra !! s) as [old |] eqn:Hlook;
      [| by left].
    right. split; [done |]. by exists s, old.
  - left. unfold scale_fleet_value, scale_fleet.
    destruct (dict_get args "count") as [| b | n | s | l | d]; try done.
    + by destruct (Z.b2z b <? 1)%Z; [| destruct (Z.b2z b >? 100)%Z].
    + by destruct (n <? 1)%Z; [| destruct (n >? 100)%Z].
  - by left.
  - by left.
  - by left.
Qed.

Lemma observe_in_sync (pe : PolicyEngine) (m : gmap string string)
    (svc health : string) :
  m !! svc = Some health →
  unhealthy_services pe = unhealthy_of m →
  unhealthy_services (observe pe svc health) = unhealthy_of m.
Proof.
  intros Hlook Hsync. apply set_eq. intros x.
  destruct (decide (x = svc)) as [-> | Hne].
  - rewrite observe_self, elem_of_unhealthy_of, Hlook.
    destruct (is_unhealthy health) eqn:Hh.
    + split; [by exists health | done].
    + destruct (String.eqb health "healthy").
      * split; [done |]. intros (h & [= <-] & ?). congruence.
      * rewrite Hsync, elem_of_unhealthy_of. by rewrite Hlook.
  - by rewrite (observe_other _ _ _ _ Hne), Hsync.
Qed.

(** Feeding the health map back into a set that already agrees with it
    changes nothing. *)
Lemma health_sync_update (sn : pyval) st :
  health_sync st → health_sync (_update_unhealthy_services sn st).
Proof.
  unfold health_sync, _update_unhealthy_services. simpl. intros Hsync.
  destruct sn as [| b | n | s | l | d]; try done.
  - destruct (observe_all_spec (policy_engine st) (services (cloud_infra st)))
      as (_ & _ & Hspec).
    simpl in Hspec. apply set_eq. intros x. rewrite Hspec.
    unfold observed_in. rewrite elem_of_unhealthy_of.
    destruct (services (cloud_infra st) !! x) as [h |] eqn:Hlook.
    + destruct (is_unhealthy h) eqn:Hh.
      * split; [by exists h | done].
      * destruct (String.eqb h "healthy").
        -- split; [done |]. intros (h' & [= <-] & ?). congruence.
        -- rewrite Hsync, elem_of_unhealthy_of. by rewrite Hlook.
    + rewrite Hsync, elem_of_unhealthy_of. by rewrite Hlook.
  - destruct (services (cloud_infra st) !! s) as [h |] eqn:Hlook; [| done].
    by apply observe_in_sync.
Qed.

(** The reconciliation after a restart re-establishes the agreement as soon
    as the two structures agree on every service but the restarted one. *)
Lemma health_sync_reconcile (R : string) st :
  unhealthy_services (policy_engine st) ∖ {[R]}
  = unhealthy_of (services (cloud_infra st)) ∖ {[R]} →
  health_sync st ∨ truthy (VStr R) = true →
  health_sync (reconcile_restart (VStr R) st).2.
Proof.
  intros Hout Htruthy. unfold reconcile_restart.
  destruct (truthy (VStr R)); [| by destruct Htruthy]. clear Htruthy.
  unfold health_sync. simpl. rewrite services_set_service_health, Hout.
  destruct (services (cloud_infra st) !! R) eqn:Hlook.
  - rewrite unhealthy_of_insert. simpl.
    apply set_eq. intros x. rewrite !elem_of_difference. tauto.
  - by rewrite unhealthy_of_unknown.
Qed.

(** Every tool call keeps the two structures in agreement. *)
Lemma health_sync_execute_tool request st :
  health_sync st → health_sync (execute_tool request st).2.
Proof.
  intros Hsync. unfold execute_tool.
  pose proof (execute_tool_function_services (tool_name request)
                (arguments request) (cloud_infra st)) as Hsvc.
  destruct (String.eqb_spec (tool_name request) "get_service_status")
    as [Hstatus | Hstatus].
  - destruct Hsvc as [Hsame | (Hrestart & _)]; [| congruence].
    destruct (_execute_tool_function _ _ _) as [r infra]. simpl in Hsame.
    assert (health_sync (with_infra st infra)) as Hsync'.
    { unfold health_sync in *. simpl. by rewrite Hsame. }
    destruct r; [by apply health_sync_update | done].
  - destruct (validate _ _ _) as [b | e] eqn:Hvalid; [| by destruct e].
    destruct (negb _); [done |].
    destruct (String.eqb _ "SHADOW"); [by destruct (simulate _ _ _) |].
    destruct (_execute_tool_function _ _ _) as [r infra]. simpl in Hsvc.
    destruct Hsvc as [Hsame | (Hrestart & R & old & Hget & -> & Hins)].
    + assert (health_sync (with_infra st infra)) as Hsync'.
      { unfold health_sync in *. simpl. by rewrite Hsame. }
      destruct r as [result | e]; [| done].
      destruct (String.eqb _ "restart_service" && mentions_success result);
        [| done].
      assert (health_sync
                (reconcile_restart (dict_get (arguments request) "service_name")
                   (with_infra st infra)).2) as Hrec.
      { destruct (dict_get _ _) as [| ? | ? | s | ? | ?] eqn:Hget;
          try (unfold reconcile_restart; by destruct (truthy _)).
        apply health_sync_reconcile; [| by left].
        unfold health_sync in Hsync'. by rewrite Hsync'. }
      by destruct (reconcile_restart _ _) as [[[] | e] st''].
    + rewrite Hrestart. simpl String.eqb. simpl andb. cbv iota. rewrite Hget.
      assert (health_sync
                (reconcile_restart (VStr R) (with_infra st infra)).2) as Hrec.
      { apply health_sync_reconcile.
        - simpl. rewrite Hins, unhealthy_of_insert. simpl.
          unfold health_sync in Hsync. rewrite Hsync.
          apply set_eq. intros x. rewrite !elem_of_difference. tauto.
        - right. rewrite Hrestart in Hvalid.
          destruct (validate_return_inv _ _ _ _ Hvalid) as (mp & _ & Hcheck).
          unfold service_specific_check in Hcheck.
          replace (_is_modification_tool "restart_service") with true in Hcheck
            by done.
          rewrite Hget in Hcheck. by destruct (truthy (VStr R)). }
      by destruct (reconcile_restart _ _) as [[[] | e] st''].
Qed.

End GatewaySync.

(** X21. As long as incidents are simulated on services the infrastructure
    knows, the unhealthy set is the set of services whose health is critical
    or degraded, after every tool call, incident, manual fix and mode
    change. *)
Lemma reachable_health_sync (p : Policy) (st : Server) :
  reachable p st → health_sync st.
Proof.
  induction 1 as [| st request _ IH | st service status _ IH Hknown
                  | st service _ IH | st mode _ IH].
  - apply health_sync_init.
  - by apply health_sync_execute_tool.
  - by apply health_sync_simulate_incident.
  - by apply health_sync_fix_service.
  - by apply health_sync_set_mode.
Qed.

(** C3 (the code departs from the claim). An incident simulated on a name
    that is not a service of the health map leaves the health map alone
    ([set_service_health] tests [service in self.services]) but registers
    the name as unhealthy (no such test), and only then fails with
    [KeyError]: from the initial state, where the two structures agree, the
    unhealthy set becomes {ghost} while no service is critical or
    degraded. *)
Theorem incident_on_unknown_service_breaks_sync :
  health_sync (Server_init ops_policy)
  ∧ services (cloud_infra (Server_init ops_policy)) !! "ghost" = None
  ∧ (simulate_incident "ghost" "critical" (Server_init ops_policy)).1
    = Raise (KeyError "ghost")
  ∧ unhealthy_services
      (policy_engine
         (simulate_incident "ghost" "critical" (Server_init ops_policy)).2)
    = {["ghost"]}
  ∧ unhealthy_of
      (services
         (cloud_infra
            (simulate_incident "ghost" "critical" (Server_init ops_policy)).2))
    = ∅
  ∧ ¬ health_sync
        (simulate_incident "ghost" "critical" (Server_init ops_policy)).2.
Proof.
  split; [apply health_sync_init |].
  split; [by vm_compute |]. split; [by vm_compute |].
  split; [by_evaluation |]. split; [by_evaluation |].
  unfold health_sync. by_evaluation.
Qed.

(** * The fleet behind the gateway *)

Section FleetBehindGateway.
Implicit Types (st : Server) (infra : CloudInfrastructure).
Implicit Types (args : gmap string pyval) (request : ToolRequest).

(** A [scale_fleet] request that gets past [validate] carries a
    [service_name], which the signature [scale_fleet(count)] refuses. *)
Lemma validated_scale_fleet_is_rejected (self : PolicyEngine) args (b : bool) :
  validate self "scale_fleet" args = Return b →
  accepts {["count"]} ∅ args = false.
Proof.
  intros Hvalid.
  destruct (validate_return_inv _ _ _ _ Hvalid) as (mp & _ & Hcheck).
  unfold service_specific_check in Hcheck.
  replace (_is_modification_tool "scale_fleet") with true in Hcheck by done.
  unfold dict_get in Hcheck.
  destruct (args !! "service_name") as [v |] eqn:Hget; [| discriminate].
  unfold accepts. apply bool_decide_eq_false_2. intros [_ Hsub].
  assert ("service_name" ∈ dom args) as Hin by (apply elem_of_dom; by exists v).
  apply Hsub in Hin. rewrite elem_of_union, elem_of_singleton in Hin.
  destruct Hin as [? | Hin]; [discriminate |]. by apply not_elem_of_empty in Hin.
Qed.

Lemma execute_tool_function_fleet (tool : string) args infra :
  tool ≠ "scale_fleet" ∨ accepts {["count"]} ∅ args = false →
  fleet_size (_execute_tool_function tool args infra).2 = fleet_size infra.
Proof.
  intros Hscale. unfold _execute_tool_function.
  repeat match goal with
         | |- context [String.eqb tool ?name] =>
             destruct (String.eqb_spec tool name) as [-> | _]
         end;
    try match goal with
        | |- context [accepts ?required ?optional args] =>
            destruct (accepts required optional args) eqn:Haccepts; [| done]
        end.
  - unfold get_service_status.
    destruct (truthy _); [| done].
    destruct (dict_get args "service_name"); try done.
    by destruct (services _ !! s).
  - unfold read_logs. by destruct (default _ _).
  - unfold restart_service.
    destruct (dict_get args "service_name") as [| ? | ? | s | ? | ?]; try done.
    simpl services. by destruct (services infra !! s).
  - by destruct Hscale.
  - done.
  - done.
  - done.
Qed.

Lemma fleet_size_set_service_health infra (service status : string) :
  fleet_size (set_service_health infra service status) = fleet_size infra.
Proof. unfold set_service_health. by destruct (services infra !! service). Qed.

(** X22. No request whatsoever changes the fleet size through the gateway:
    a [scale_fleet] request is stopped by the policy, or by the signature of
    [scale_fleet] once it carries the [service_name] the policy asks for. *)
Lemma gateway_never_scales_fleet request st :
  fleet_size (cloud_infra (execute_tool request st).2)
  = fleet_size (cloud_infra st).
Proof.
  unfold execute_tool.
  destruct (String.eqb_spec (tool_name request) "get_service_status")
    as [Hstatus | Hstatus].
  - pose proof (execute_tool_function_fleet (tool_name request)
                  (arguments request) (cloud_infra st)) as Hfleet.
    destruct (_execute_tool_function _ _ _) as [r infra]. simpl in Hfleet.
    destruct r; simpl; apply Hfleet; left; by rewrite Hstatus.
  - destruct (validate _ _ _) as [b | e] eqn:Hvalid; [| by destruct e].
    destruct (negb _); [done |].
    destruct (String.eqb _ "SHADOW"); [by destruct (simulate _ _ _) |].
    pose proof (execute_tool_function_fleet (tool_name request)
                  (arguments request) (cloud_infra st)) as Hfleet.
    destruct (_execute_tool_function _ _ _) as [r infra]. simpl in Hfleet.
    assert (fleet_size infra = fleet_size (cloud_infra st)) as Hsame.
    { apply Hfleet.
      destruct (decide (tool_name request = "scale_fleet")) as [Heq | Hne];
        [right | by left].
      rewrite Heq in Hvalid. by eapply validated_scale_fleet_is_rejected. }
    destruct r as [result | e]; [| done].
    destruct (String.eqb _ "restart_service" && mentions_success result);
      [| done].
    assert (fleet_size
              (cloud_infra
                 (reconcile_restart (dict_get (arguments request) "service_name")
                    (with_infra st infra)).2) = fleet_size infra) as Hrec.
    { unfold reconcile_restart. destruct (truthy _); [| done].
      destruct (dict_get _ _); try done.
      simpl. by rewrite fleet_size_set_service_health. }
    destruct (reconcile_restart _ _) as [[[] | e] st'']; simpl in *; congruence.
Qed.

End FleetBehindGateway.

(** * The execution log *)

Section ExecutionLog.
Implicit Types (log : list log_entry) (entry : log_entry).
Implicit Types (infra : CloudInfrastructure) (st : Server).

Lemma execution_log_log_action infra act det :
  execution_log (_log_action infra act det)
  = log_push (execution_log infra) {| action := act; details := det |}.
Proof. reflexivity. Qed.

Lemma log_push_length log entry :
  length (log_push log entry) = Nat.min (S (length log)) 100.
Proof.
  unfold log_push, last_100. case_bool_decide as Hlong.
  - rewrite length_drop, !length_app in *. simpl in *. lia.
  - rewrite !length_app in *. simpl in *. lia.
Qed.

Lemma log_push_last log entry : last (log_push log entry) = Some entry.
Proof.
  unfold log_push, last_100. case_bool_decide as Hlong.
  - rewrite length_app in *. simpl in *.
    rewrite drop_app_le by lia. apply last_snoc.
  - apply last_snoc.
Qed.

Lemma log_push_elem_of log entry e :
  e ∈ log_push log entry → e ∈ log ∨ e = entry.
Proof.
  unfold log_push, last_100. intros Hin.
  assert (e ∈ (log ++ [entry])%list) as Hall.
  { case_bool_decide; [| done]. revert Hin. apply subseteq_drop. }
  rewrite elem_of_app, list_elem_of_singleton in Hall. exact Hall.
Qed.

End ExecutionLog.

Section LogExtension.
Implicit Types (log : list log_entry) (entry : log_entry).
Implicit Types (infra : CloudInfrastructure) (st : Server).
Implicit Types (args : gmap string pyval) (actions : list string).

Lemma extends_log_action actions infra act det :
  act ∈ actions →
  extends actions (execution_log infra) (execution_log (_log_action infra act det)).
Proof.
  intros Hact. rewrite execution_log_log_action.
  apply extends_push; [apply extends_refl | exact Hact].
Qed.

Lemma extends_trans actions log1 log2 log3 :
  extends actions log1 log2 → extends actions log2 log3 →
  extends actions log1 log3.
Proof.
  intros H12 H23. induction H23 as [| log2 log3 entry _ IH Hact]; [done |].
  apply extends_push; [by apply IH | done].
Qed.

Lemma extends_length actions log log' :
  extends actions log log' →
  (length log ≤ 100)%nat → (length log' ≤ 100)%nat.
Proof.
  induction 1 as [| before log' entry _ IH Hact]; [done |].
  intros _. rewrite log_push_length. lia.
Qed.

Lemma extends_actions actions log log' :
  extends actions log log' →
  (∀ e, e ∈ log → action e ∈ actions) →
  ∀ e, e ∈ log' → action e ∈ actions.
Proof.
  induction 1 as [| before log' entry _ IH Hact]; [done |].
  intros Hold e Hin. destruct (log_push_elem_of _ _ _ Hin) as [Hin' | ->].
  - by apply IH.
  - done.
Qed.

Lemma extends_set_service_health actions infra (service status : string) :
  "health_change" ∈ actions →
  extends actions (execution_log infra)
    (execution_log (set_service_health infra service status)).
Proof.
  intros Hact. unfold set_service_health.
  destruct (services infra !! service); [| apply extends_refl].
  rewrite execution_log_log_action. simpl.
  apply extends_push; [apply extends_refl | exact Hact].
Qed.

(** A request that gets past [validate] for a mutation-class tool carries
    the key [service_name]. *)
Lemma validated_mutation_has_service_name (self : PolicyEngine)
    (tool : string) args (b : bool) :
  validate self tool args = Return b →
  _is_modification_tool tool = true →
  "service_name" ∈ dom args.
Proof.
  intros Hvalid Hmod.
  destruct (validate_return_inv _ _ _ _ Hvalid) as (mp & _ & Hcheck).
  unfold service_specific_check in Hcheck. rewrite Hmod in Hcheck.
  unfold dict_get in Hcheck.
  destruct (args !! "service_name") as [v |] eqn:Hget; [| discriminate].
  apply elem_of_dom. by exists v.
Qed.

Lemma accepts_rejects_service_name (name : string) args :
  name ≠ "service_name" →
  "service_name" ∈ dom args →
  accepts {[name]} ∅ args = false.
Proof.
  intros Hname Hin. unfold accepts. apply bool_decide_eq_false_2.
  intros [_ Hsub]. apply Hsub in Hin.
  rewrite elem_of_union, elem_of_singleton in Hin.
  destruct Hin as [? | Hin]; [congruence |]. by apply not_elem_of_empty in Hin.
Qed.

Lemma get_service_status_state infra (service_name : pyval) :
  (get_service_status infra service_name).2
  = _log_action infra "get_service_status" [("service", service_name)].
Proof.
  unfold get_service_status. destruct (truthy _); [| done].
  destruct service_name as [| ? | ? | s | ? | ?]; try done.
  by destruct (services _ !! s).
Qed.

(** What running a tool appends to the log, as long as the bodies of
    [scale_fleet] and [delete_database] are out of reach. *)
Lemma extends_execute_tool_function (tool : string) args infra :
  tool ≠ "scale_fleet" ∨ accepts {["count"]} ∅ args = false →
  tool ≠ "delete_database" ∨ accepts {["db_name"]} ∅ args = false →
  extends routine_actions (execution_log infra)
    (execution_log (_execute_tool_function tool args infra).2).
Proof.
  intros Hscale Hdelete. unfold _execute_tool_function.
  repeat match goal with
         | |- context [String.eqb tool ?name] =>
             destruct (String.eqb_spec tool name) as [-> | _]
         end;
    try match goal with
        | |- context [accepts ?required ?optional args] =>
            destruct (accepts required optional args) eqn:Haccepts;
            [| apply extends_refl]
        end.
  - pose proof (get_service_status_state infra (dict_get args "service_name"))
      as Hstate.
    destruct (get_service_status _ _) as [r infra']. simpl in *. subst infra'.
    apply extends_log_action. by_evaluation.
  - unfold read_logs.
    destruct (default _ _); apply extends_log_action; by_evaluation.
  - unfold restart_service.
    destruct (dict_get args "service_name") as [| ? | ? | s | ? | ?];
      try (apply extends_log_action; by_evaluation).
    simpl services.
    destruct (services infra !! s); apply extends_log_action; by_evaluation.
  - by destruct Hscale.
  - by destruct Hdelete.
  - apply extends_log_action. by_evaluation.
  - apply extends_refl.
Qed.

End LogExtension.

Section LogOfRuns.
Implicit Types (st : Server) (request : ToolRequest) (evs : list event).

Lemma extends_reconcile_restart (service_name : pyval) st :
  extends routine_actions (execution_log (cloud_infra st))
    (execution_log (cloud_infra (reconcile_restart service_name st).2)).
Proof.
  unfold reconcile_restart. destruct (truthy _); [| apply extends_refl].
  destruct service_name; try apply extends_refl.
  simpl. apply extends_set_service_health. by_evaluation.
Qed.

Lemma extends_execute_tool request st :
  extends routine_actions (execution_log (cloud_infra st))
    (execution_log (cloud_infra (execute_tool request st).2)).
Proof.
  unfold execute_tool.
  destruct (String.eqb_spec (tool_name request) "get_service_status")
    as [Hstatus | Hstatus].
  - pose proof (extends_execute_tool_function (tool_name request)
                  (arguments request) (cloud_infra st)) as Hlog.
    destruct (_execute_tool_function _ _ _) as [r infra]. simpl in Hlog.
    destruct r; simpl; apply Hlog; left; rewrite Hstatus; discriminate.
  - destruct (validate _ _ _) as [b | e] eqn:Hvalid;
      [| destruct e; apply extends_refl].
    destruct (negb _); [apply extends_refl |].
    destruct (String.eqb _ "SHADOW");
      [destruct (simulate _ _ _); apply extends_refl |].
    pose proof (extends_execute_tool_function (tool_name request)
                  (arguments request) (cloud_infra st)) as Hlog.
    destruct (_execute_tool_function _ _ _) as [r infra]. simpl in Hlog.
    assert (extends routine_actions (execution_log (cloud_infra st))
              (execution_log infra)) as Hrun.
    { apply Hlog.
      - destruct (decide (tool_name request = "scale_fleet")) as [Heq | Hne];
          [right | by left].
        rewrite Heq in Hvalid. by eapply validated_scale_fleet_is_rejected.
      - destruct (decide (tool_name request = "delete_database")) as [Heq | Hne];
          [right | by left].
        rewrite Heq in Hvalid. apply accepts_rejects_service_name; [done |].
        by eapply validated_mutation_has_service_name. }
    destruct r as [result | e]; [| exact Hrun].
    destruct (String.eqb _ "restart_service" && mentions_success result).
    + pose proof (extends_reconcile_restart
                    (dict_get (arguments request) "service_name")
                    (with_infra st infra)) as Hrec.
      destruct (reconcile_restart _ _) as [[[] | e] st'']; simpl in *;
        by eapply extends_trans.
    + exact Hrun.
Qed.

Lemma extends_step st (ev : event) :
  extends routine_actions (execution_log (cloud_infra st))
    (execution_log (cloud_infra (step st ev))).
Proof.
  destruct ev as [request | service status | service | mode]; simpl.
  - apply extends_execute_tool.
  - unfold simulate_incident.
    destruct (services _ !! service); simpl;
      apply extends_set_service_health; by_evaluation.
  - apply extends_set_service_health. by_evaluation.
  - unfold set_mode_endpoint, set_mode.
    destruct (modes _ !! mode); apply extends_refl.
Qed.

Lemma extends_run evs st :
  extends routine_actions (execution_log (cloud_infra st))
    (execution_log (cloud_infra (run evs st))).
Proof.
  revert st. induction evs as [| ev evs IH]; intros st; [apply extends_refl |].
  simpl. eapply extends_trans; [apply extends_step | apply IH].
Qed.

End LogOfRuns.

(** X1. [_log_action] appends the new entry at the end and keeps at most
    the last 100 entries: the new log has [min (n + 1) 100] entries, its
    last entry is the new one, nothing is dropped while there is room, and
    on a full log exactly the oldest entry goes.  Health map and fleet size
    are not touched. *)
Theorem log_action_keeps_last_100 (infra : CloudInfrastructure)
    (act : string) (det : list (string * pyval)) :
  length (execution_log (_log_action infra act det))
  = Nat.min (S (length (execution_log infra))) 100
  ∧ last (execution_log (_log_action infra act det))
    = Some {| action := act; details := det |}
  ∧ ((length (execution_log infra) < 100)%nat →
     execution_log (_log_action infra act det)
     = (execution_log infra ++ [{| action := act; details := det |}])%list)
  ∧ (length (execution_log infra) = 100%nat →
     execution_log (_log_action infra act det)
     = (drop 1 (execution_log infra)
        ++ [{| action := act; details := det |}])%list)
  ∧ services (_log_action infra act det) = services infra
  ∧ fleet_size (_log_action infra act det) = fleet_size infra.
Proof.
  rewrite execution_log_log_action.
  split; [apply log_push_length |]. split; [apply log_push_last |].
  split; [| split; [| done]].
  - intros Hroom. unfold log_push.
    rewrite bool_decide_eq_false_2; [done |].
    rewrite length_app. simpl. lia.
  - intros Hfull. unfold log_push, last_100.
    rewrite bool_decide_eq_true_2 by (rewrite length_app; simpl; lia).
    rewrite length_app, Hfull. simpl.
    rewrite drop_app_le by lia. reflexivity.
Qed.

(** X2. Along every run of the server the execution log holds at most 100
    entries. *)
Theorem execution_log_never_exceeds_100 (p : Policy) (evs : list event) :
  (length (execution_log (cloud_infra (run evs (Server_init p)))) ≤ 100)%nat.
Proof.
  eapply extends_length; [apply extends_run |]. simpl. lia.
Qed.

(** X3. Along every run of the server the execution log only ever records
    the actions list_services, get_service_status, read_logs,
    restart_service and health_change: whatever the policy document says,
    the bodies of [scale_fleet] and [delete_database] are never run through
    the gateway. *)
Theorem only_routine_actions_are_logged (p : Policy) (evs : list event)
    (e : log_entry) :
  e ∈ execution_log (cloud_infra (run evs (Server_init p))) →
  action e ∈ routine_actions
  ∧ action e ≠ "scale_fleet"
  ∧ action e ≠ "delete_database_attempt".
Proof.
  intros Hin.
  assert (action e ∈ routine_actions) as Hact.
  { eapply extends_actions; [apply extends_run | | exact Hin].
    simpl. intros e' He'. by apply elem_of_nil in He'. }
  split; [exact Hact |].
  split; intros Heq; rewrite Heq in Hact; revert Hact; by_evaluation.
Qed.

Lemma log_action_keeps_last_100_witness :
  execution_log (_log_action CloudInfrastructure_init "list_services" [])
  = (execution_log CloudInfrastructure_init
     ++ [{| action := "list_services"; details := [] |}])%list
  ∧ execution_log (_log_action full_log_infra "list_services" [])
    = (drop 1 (execution_log full_log_infra)
       ++ [{| action := "list_services"; details := [] |}])%list.
Proof.
  split.
  - destruct (log_action_keeps_last_100 CloudInfrastructure_init
                "list_services" []) as (_ & _ & Hroom & _).
    apply Hroom. simpl. lia.
  - destruct (log_action_keeps_last_100 full_log_infra "list_services" [])
      as (_ & _ & _ & Hfull & _).
    apply Hfull. vm_compute. reflexivity.
Defined.

Lemma only_routine_actions_are_logged_witness :
  action {| action := "get_service_status"; details := [("service", VNone)] |}
  ∈ routine_actions
  ∧ action {| action := "get_service_status"; details := [("service", VNone)] |}
    ≠ "scale_fleet"
  ∧ action {| action := "get_service_status"; details := [("service", VNone)] |}
    ≠ "delete_database_attempt".
Proof.
  apply (only_routine_actions_are_logged ops_policy
           [ToolCall (real_request "get_service_status" ∅)]).
  vm_compute. apply list_elem_of_here.
Defined.

(** * The health map under tool calls *)

Section HealthMap.
Implicit Types (st : Server) (request : ToolRequest) (evs : list event).
Implicit Types (infra : CloudInfrastructure) (args : gmap string pyval).
Implicit Types (svc : string).

Lemma execute_tool_function_health (tool : string) args infra svc :
  services (_execute_tool_function tool args infra).2 !! svc
  = services infra !! svc
  ∨ (tool = "restart_service"
     ∧ dict_get args "service_name" = VStr svc
     ∧ is_Some (services infra !! svc)
     ∧ services (_execute_tool_function tool args infra).2 !! svc
       = Some "healthy").
Proof.
  destruct (execute_tool_function_services tool args infra)
    as [Hsame | (Htool & R & old & Hget & Hres & Hins)].
  { left. by rewrite Hsame. }
  destruct (decide (svc = R)) as [-> | Hne].
  - right. repeat split; try done.
    + revert Hres. rewrite Htool. unfold _execute_tool_function.
      simpl String.eqb. cbv iota. rewrite Hget.
      destruct (accepts _ _ _); [| discriminate].
      unfold restart_service. simpl services.
      destruct (services infra !! R); [by eexists | discriminate].
    + by rewrite Hins, lookup_insert_eq.
  - left. by rewrite Hins, lookup_insert_ne.
Qed.

Lemma set_service_health_lookup_other infra (service status : string) svc :
  svc ≠ service →
  services (set_service_health infra service status) !! svc
  = services infra !! svc.
Proof.
  intros Hne. rewrite services_set_service_health.
  destruct (services infra !! service); [| done].
  by rewrite lookup_insert_ne.
Qed.

Lemma set_service_health_lookup_self infra (service status : string) :
  services (set_service_health infra service status) !! service
  = (λ _, status) <$> services infra !! service.
Proof.
  rewrite services_set_service_health.
  destruct (services infra !! service) eqn:Hlook; simpl.
  - by rewrite lookup_insert_eq.
  - done.
Qed.

Lemma reconcile_restart_health (sn : pyval) st svc :
  services (cloud_infra (reconcile_restart sn st).2) !! svc
  = services (cloud_infra st) !! svc
  ∨ (sn = VStr svc
     ∧ is_Some (services (cloud_infra st) !! svc)
     ∧ services (cloud_infra (reconcile_restart sn st).2) !! svc
       = Some "healthy").
Proof.
  unfold reconcile_restart. destruct (truthy sn); [| by left].
  destruct sn as [| ? | ? | s | ? | ?]; try by left.
  simpl. destruct (decide (svc = s)) as [-> | Hne].
  - rewrite set_service_health_lookup_self.
    destruct (services (cloud_infra st) !! s) eqn:Hlook; [| by left].
    right. split; [done |]. split; [by eexists | done].
  - left. by apply set_service_health_lookup_other.
Qed.

Lemma execute_tool_health request st svc :
  services (cloud_infra (execute_tool request st).2) !! svc
  = services (cloud_infra st) !! svc
  ∨ (tool_name request = "restart_service"
     ∧ dict_get (arguments request) "service_name" = VStr svc
     ∧ is_Some (services (cloud_infra st) !! svc)
     ∧ services (cloud_infra (execute_tool request st).2) !! svc
       = Some "healthy").
Proof.
  unfold execute_tool.
  pose proof (execute_tool_function_health (tool_name request)
                (arguments request) (cloud_infra st) svc) as Hrun.
  destruct (String.eqb_spec (tool_name request) "get_service_status")
    as [Hstatus | Hstatus].
  - destruct (_execute_tool_function _ _ _) as [r infra]. simpl in Hrun.
    destruct Hrun as [Hsame | (Htool & _)]; [| congruence].
    left. by destruct r.
  - destruct (validate _ _ _) as [b | e]; [| left; by destruct e].
    destruct (negb _); [by left |].
    destruct (String.eqb _ "SHADOW"); [left; by destruct (simulate _ _ _) |].
    destruct (_execute_tool_function _ _ _) as [r infra]. simpl in Hrun.
    destruct r as [result | e]; [| exact Hrun].
    destruct (String.eqb_spec (tool_name request) "restart_service")
      as [Hrestart | Hrestart]; simpl andb; [| exact Hrun].
    destruct (mentions_success result); [| exact Hrun].
    pose proof (reconcile_restart_health
                  (dict_get (arguments request) "service_name")
                  (with_infra st infra) svc) as Hrec.
    assert (services
              (cloud_infra
                 (reconcile_restart (dict_get (arguments request) "service_name")
                    (with_infra st infra)).2) !! svc
            = services (cloud_infra st) !! svc
            ∨ (tool_name request = "restart_service"
               ∧ dict_get (arguments request) "service_name" = VStr svc
               ∧ is_Some (services (cloud_infra st) !! svc)
               ∧ services
                   (cloud_infra
                      (reconcile_restart
                         (dict_get (arguments request) "service_name")
                         (with_infra st infra)).2) !! svc = Some "healthy"))
      as Hgoal.
    { simpl in Hrec.
      destruct Hrec as [Hsame | (Hsn & Hknown & Hhealthy)].
      - rewrite Hsame.
        destruct Hrun as [Hrun | (? & ? & ? & ?)]; [by left | by right].
      - right. repeat split; try done.
        destruct Hrun as [Hrun | (? & ? & ? & ?)]; [by rewrite <- Hrun | done]. }
    by destruct (reconcile_restart _ _) as [[[] | e] st''].
Qed.

Lemma step_known st (ev : event) svc :
  is_Some (services (cloud_infra (step st ev)) !! svc)
  ↔ is_Some (services (cloud_infra st) !! svc).
Proof.
  destruct ev as [request | service status | service | mode]; simpl.
  - destruct (execute_tool_health request st svc)
      as [-> | (_ & _ & Hknown & ->)]; [done |].
    split; [done | by eexists].
  - assert (is_Some (services (set_service_health (cloud_infra st) service status)
                     !! svc)
            ↔ is_Some (services (cloud_infra st) !! svc)) as Hset.
    { destruct (decide (svc = service)) as [-> | Hne].
      - rewrite set_service_health_lookup_self.
        by rewrite fmap_is_Some.
      - by rewrite set_service_health_lookup_other. }
    unfold simulate_incident. by destruct (services _ !! service).
  - destruct (decide (svc = service)) as [-> | Hne].
    + rewrite set_service_health_lookup_self. by rewrite fmap_is_Some.
    + by rewrite set_service_health_lookup_other.
  - unfold set_mode_endpoint, set_mode. by destruct (modes _ !! mode).
Qed.

End HealthMap.

(** X4. A tool call changes the health of a service only when it is a
    [restart_service] call that names this service, the service exists, and
    its health afterwards is "healthy".  No other tool, and no restart of
    another service, changes it. *)
Theorem tool_call_changes_health_only_by_restart (request : ToolRequest)
    (st : Server) (svc : string) :
  services (cloud_infra (execute_tool request st).2) !! svc
  ≠ services (cloud_infra st) !! svc →
  tool_name request = "restart_service"
  ∧ dict_get (arguments request) "service_name" = VStr svc
  ∧ is_Some (services (cloud_infra st) !! svc)
  ∧ services (cloud_infra (execute_tool request st).2) !! svc = Some "healthy".
Proof.
  intros Hchanged.
  by destruct (execute_tool_health request st svc) as [Hsame | Hrestart].
Qed.

Lemma tool_call_changes_health_only_by_restart_witness :
  tool_name (real_request "restart_service" {["service_name" := VStr "cache"]})
  = "restart_service"
  ∧ dict_get
      (arguments (real_request "restart_service"
                    {["service_name" := VStr "cache"]})) "service_name"
    = VStr "cache"
  ∧ is_Some (services (cloud_infra cache_incident) !! "cache")
  ∧ services
      (cloud_infra
         (execute_tool (real_request "restart_service"
                          {["service_name" := VStr "cache"]}) cache_incident).2)
    !! "cache" = Some "healthy".
Proof.
  apply (tool_call_changes_health_only_by_restart
           (real_request "restart_service" {["service_name" := VStr "cache"]})
           cache_incident "cache").
  vm_compute. discriminate.
Defined.

(** X5. Along every run of the server the health map has exactly the five
    services it starts with: no request creates or removes a service. *)
Theorem services_are_never_created_or_removed (p : Policy)
    (evs : list event) (svc : string) :
  is_Some (services (cloud_infra (run evs (Server_init p))) !! svc)
  ↔ svc ∈ ["web-server"; "api-gateway"; "database"; "cache"; "load-balancer"].
Proof.
  assert (∀ st, is_Some (services (cloud_infra (run evs st)) !! svc)
                ↔ is_Some (services (cloud_infra st) !! svc)) as Hrun.
  { induction evs as [| ev evs IH]; intros st; [done |].
    simpl. by rewrite IH, step_known. }
  rewrite Hrun. simpl. rewrite <- elem_of_dom.
  replace (dom (services CloudInfrastructure_init))
    with (list_to_set ["web-server"; "api-gateway"; "database"; "cache";
                       "load-balancer"] : gset string)
    by by_evaluation.
  apply elem_of_list_to_set.
Qed.

(** * The mode and the policy document along a run *)

Section ModeOfRuns.
Implicit Types (st : Server) (request : ToolRequest) (evs : list event).
Implicit Types (pe : PolicyEngine).

Lemma update_unhealthy_services_keeps_policy (sn : pyval) st :
  policy (policy_engine (_update_unhealthy_services sn st))
  = policy (policy_engine st)
  ∧ current_mode (policy_engine (_update_unhealthy_services sn st))
    = current_mode (policy_engine st).
Proof.
  unfold _update_unhealthy_services. simpl.
  destruct sn as [| ? | ? | s | ? | ?]; try done.
  - destruct (observe_all_spec (policy_engine st) (services (cloud_infra st)))
      as (Hpolicy & Hmode & _).
    by split.
  - destruct (services (cloud_infra st) !! s); [| done].
    apply observe_keeps_policy.
Qed.

Lemma reconcile_restart_keeps_policy (sn : pyval) st :
  policy (policy_engine (reconcile_restart sn st).2) = policy (policy_engine st)
  ∧ current_mode (policy_engine (reconcile_restart sn st).2)
    = current_mode (policy_engine st).
Proof.
  unfold reconcile_restart. destruct (truthy sn); [| done]. by destruct sn.
Qed.

Lemma execute_tool_keeps_policy request st :
  policy (policy_engine (execute_tool request st).2) = policy (policy_engine st)
  ∧ current_mode (policy_engine (execute_tool request st).2)
    = current_mode (policy_engine st).
Proof.
  unfold execute_tool.
  destruct (String.eqb_spec (tool_name request) "get_service_status")
    as [Hstatus | Hstatus].
  - destruct (_execute_tool_function _ _ _) as [[result | e] infra]; [| done].
    apply (update_unhealthy_services_keeps_policy _ (with_infra st infra)).
  - destruct (validate _ _ _) as [b | e]; [| by destruct e].
    destruct (negb _); [done |].
    destruct (String.eqb _ "SHADOW"); [by destruct (simulate _ _ _) |].
    destruct (_execute_tool_function _ _ _) as [[result | e] infra]; [| done].
    destruct (String.eqb _ "restart_service" && mentions_success result);
      [| done].
    pose proof (reconcile_restart_keeps_policy
                  (dict_get (arguments request) "service_name")
                  (with_infra st infra)) as Hrec.
    by destruct (reconcile_restart _ _) as [[[] | e'] st''].
Qed.

Lemma step_keeps_policy st (ev : event) :
  policy (policy_engine (step st ev)) = policy (policy_engine st).
Proof.
  destruct ev as [request | service status | service | mode]; simpl.
  - apply execute_tool_keeps_policy.
  - unfold simulate_incident.
    by destruct (services _ !! service); destruct (is_unhealthy status).
  - done.
  - unfold set_mode_endpoint, set_mode. by destruct (modes _ !! mode).
Qed.

Lemma step_keeps_mode_declared st (ev : event) :
  is_Some (modes (policy (policy_engine st)) !! current_mode (policy_engine st)) →
  is_Some (modes (policy (policy_engine (step st ev)))
           !! current_mode (policy_engine (step st ev))).
Proof.
  intros Hdeclared. rewrite step_keeps_policy.
  destruct ev as [request | service status | service | mode]; simpl.
  - by rewrite (proj2 (execute_tool_keeps_policy request st)).
  - unfold simulate_incident.
    by destruct (services _ !! service); destruct (is_unhealthy status).
  - done.
  - unfold set_mode_endpoint, set_mode.
    destruct (modes _ !! mode) eqn:Hmode; simpl; [| done].
    rewrite Hmode. by eexists.
Qed.

(** [validate] raises [KeyError] only for a current mode the policy document
    does not declare. *)
Lemma validate_key_error pe (tool : string) (args : gmap string pyval)
    (key : string) :
  validate pe tool args = Raise (KeyError key) →
  modes (policy pe) !! current_mode pe = None.
Proof.
  unfold validate, service_specific_check, health_gate, violation.
  case_bool_decide; [discriminate |].
  destruct (modes (policy pe) !! current_mode pe); [| done].
  case_bool_decide; [discriminate |].
  destruct (negb (bool_decide _)); [discriminate |].
  destruct (_is_modification_tool tool); [| discriminate].
  destruct (negb (truthy _)); [discriminate |].
  destruct (_ && _); [| discriminate].
  destruct (dict_get args "service_name"); try discriminate.
  by case_bool_decide.
Qed.

End ModeOfRuns.

(** X6. When the policy document declares the mode NORMAL, then along every
    run of the server the policy document stays the one loaded at start-up
    and the current mode is one it declares; so [validate] never fails with
    [KeyError] and the policy status can always be read. *)
Theorem current_mode_is_always_declared (p : Policy) (evs : list event) :
  is_Some (modes p !! "NORMAL") →
  policy (policy_engine (run evs (Server_init p))) = p
  ∧ is_Some (modes p !! current_mode (policy_engine (run evs (Server_init p))))
  ∧ (∀ tool args key,
       validate (policy_engine (run evs (Server_init p))) tool args
       ≠ Raise (KeyError key))
  ∧ ∃ status, get_policy_status (run evs (Server_init p)) = Return status.
Proof.
  intros Hnormal.
  assert (∀ st,
            is_Some (modes (policy (policy_engine st))
                     !! current_mode (policy_engine st)) →
            policy (policy_engine (run evs st)) = policy (policy_engine st)
            ∧ is_Some (modes (policy (policy_engine st))
                       !! current_mode (policy_engine (run evs st)))) as Hrun.
  { induction evs as [| ev evs IH]; intros st Hst; [done |].
    simpl. destruct (IH (step st ev) (step_keeps_mode_declared st ev Hst))
      as [Hpolicy Hmode].
    rewrite step_keeps_policy in Hpolicy, Hmode. by split. }
  destruct (Hrun (Server_init p) Hnormal) as [Hpolicy Hmode].
  simpl in Hpolicy, Hmode.
  split; [exact Hpolicy |]. split; [exact Hmode |]. split.
  - intros tool args key Hraise. apply validate_key_error in Hraise.
    rewrite Hpolicy in Hraise. rewrite Hraise in Hmode. by destruct Hmode.
  - unfold get_policy_status. rewrite Hpolicy.
    destruct Hmode as [mp ->]. by eexists.
Qed.

Lemma current_mode_is_always_declared_witness :
  policy (policy_engine
            (run [ModeChange "EMERGENCY"; ModeChange "MAINTENANCE"]
               (Server_init ops_policy))) = ops_policy
  ∧ is_Some (modes ops_policy
             !! current_mode
                  (policy_engine
                     (run [ModeChange "EMERGENCY"; ModeChange "MAINTENANCE"]
                        (Server_init ops_policy))))
  ∧ (∀ tool args key,
       validate
         (policy_engine
            (run [ModeChange "EMERGENCY"; ModeChange "MAINTENANCE"]
               (Server_init ops_policy))) tool args
       ≠ Raise (KeyError key))
  ∧ ∃ status,
      get_policy_status
        (run [ModeChange "EMERGENCY"; ModeChange "MAINTENANCE"]
           (Server_init ops_policy)) = Return status.
Proof.
  apply (current_mode_is_always_declared ops_policy
           [ModeChange "EMERGENCY"; ModeChange "MAINTENANCE"]).
  exists normal_policy. vm_compute. reflexivity.
Defined.

(** * Execution modes *)

(** The case mappings on some texts, as Python computes them: "shadow",
    the same word with a long s, "straße", the ligature st followed by "op",
    a word that stays outside ASCII ("é" has the upper case "É"), and the
    Kelvin sign, whose lower case is the letter k. *)
Lemma case_mapping_examples :
  upper "shadow" = "SHADOW"
  ∧ upper (String.append (text [197; 191]) "hadow") = "SHADOW"
  ∧ upper (String.append "stra" (String.append (text [195; 159]) "e"))
    = "STRASSE"
  ∧ upper (String.append (text [239; 172; 134]) "op") = "STOP"
  ∧ upper (String.append "r" (String.append (text [195; 169]) "al"))
    ≠ "REAL"
  ∧ lower "Success" = "success"
  ∧ lower (text [226; 132; 170]) = "k".
Proof. repeat split; try reflexivity. by vm_compute. Qed.



(** X8. The execution mode is not looked at for [get_service_status]: a
    status request marked SHADOW, or marked with an unknown mode, is executed
    like a REAL one, so it is logged and it updates the unhealthy set. *)
Theorem status_check_ignores_execution_mode (request : ToolRequest)
    (st : Server) :
  tool_name request = "get_service_status" →
  execute_tool request st
  = execute_tool (real_request "get_service_status" (arguments request)) st
  ∧ (accepts ∅ {["service_name"]} (arguments request) = true →
     execution_log (cloud_infra (execute_tool request st).2)
     = log_push (execution_log (cloud_infra st))
         {| action := "get_service_status";
            details :=
              [("service", dict_get (arguments request) "service_name")] |}).
Proof.
  intros Htool. split.
  - unfold execute_tool. rewrite Htool. reflexivity.
  - intros Haccepts. unfold execute_tool, _execute_tool_function.
    rewrite Htool. simpl String.eqb. cbv iota. rewrite Haccepts.
    pose proof (get_service_status_state (cloud_infra st)
                  (dict_get (arguments request) "service_name")) as Hstate.
    destruct (get_service_status _ _) as [r infra]. simpl in Hstate.
    subst infra. by destruct r as [result | []].
Qed.

Lemma status_check_ignores_execution_mode_witness :
  execute_tool shadow_status cache_incident
  = execute_tool (real_request "get_service_status" (arguments shadow_status))
      cache_incident
  ∧ execution_log (cloud_infra (execute_tool shadow_status cache_incident).2)
    = log_push (execution_log (cloud_infra cache_incident))
        {| action := "get_service_status";
           details :=
             [("service", dict_get (arguments shadow_status) "service_name")] |}.
Proof.
  destruct (status_check_ignores_execution_mode shadow_status cache_incident)
    as [Hsame Hlog].
  - reflexivity.
  - split; [exact Hsame |]. apply Hlog. vm_compute. reflexivity.
Defined.

(** * Answers of the gateway *)

(** With a declared mode and a hashable target, [validate] either returns
    [True] or raises a policy violation. *)
Lemma validate_outcomes (pe : PolicyEngine) (tool : string)
    (args : gmap string pyval) :
  is_Some (modes (policy pe) !! current_mode pe) →
  hashable (dict_get args "service_name") = true →
  validate pe tool args = Return true
  ∨ ∃ e, validate pe tool args = Raise (PolicyViolationError e).
Proof.
  intros [mp Hmode] Hhash.
  unfold validate, service_specific_check, health_gate, violation.
  case_bool_decide; [right; by eexists |]. rewrite Hmode.
  case_bool_decide; [right; by eexists |].
  destruct (negb (bool_decide _)); [right; by eexists |].
  destruct (_is_modification_tool tool); [| by left].
  destruct (negb (truthy _)); [right; by eexists |].
  destruct (_ && _); [| by left].
  destruct (dict_get args "service_name"); try discriminate;
    try (right; by eexists).
  case_bool_decide; [by left | right; by eexists].
Qed.

(** X9. A REAL request for any tool but [get_service_status], made while the
    current mode is declared and with a [service_name] that is not a list or
    a dictionary, always gets a structured answer; the handler never fails.
    The answer is a policy violation (and then nothing has changed), an
    execution error, or a success that carries the tool's output. *)
Theorem real_requests_are_always_answered (request : ToolRequest) (st : Server) :
  tool_name request ≠ "get_service_status" →
  normalised_execution_mode request = "REAL" →
  is_Some (modes (policy (policy_engine st)) !! current_mode (policy_engine st)) →
  hashable (dict_get (arguments request) "service_name") = true →
  (∃ e, execute_tool request st = (Return (violation_response e), st))
  ∨ (∃ e, (execute_tool request st).1 = Return (execution_error_response e))
  ∨ (∃ output,
       (execute_tool request st).1
       = Return (success_response (ToolOutput output))).
Proof.
  intros Hstatus Hreal Hmode Hhash.
  destruct (validate_outcomes (policy_engine st) (tool_name request)
              (arguments request) Hmode Hhash) as [Hvalid | [e Hdeny]].
  2: { left. exists e. by apply execute_tool_policy_violation. }
  right. destruct (real_mode_dispatch _ Hreal) as [Hin Hshadow].
  unfold execute_tool.
  destruct (String.eqb_spec (tool_name request) "get_service_status");
    [contradiction |].
  rewrite Hvalid, Hin, Hshadow.
  destruct (_execute_tool_function _ _ _) as [[output | e] infra];
    [| left; by eexists].
  match goal with
  | |- context [if ?c then reconcile_restart ?sn ?s else ?d] =>
      destruct (if c then reconcile_restart sn s else d) as [[[] | e] st'']
  end; [right | left]; by eexists.
Qed.

Lemma real_requests_are_always_answered_witness :
  (∃ e, execute_tool (real_request "read_logs" {["lines" := VStr "many"]})
          cache_incident
        = (Return (violation_response e), cache_incident))
  ∨ (∃ e, (execute_tool (real_request "read_logs" {["lines" := VStr "many"]})
             cache_incident).1
          = Return (execution_error_response e))
  ∨ (∃ output,
       (execute_tool (real_request "read_logs" {["lines" := VStr "many"]})
          cache_incident).1
       = Return (success_response (ToolOutput output))).
Proof.
  apply (real_requests_are_always_answered
           (real_request "read_logs" {["lines" := VStr "many"]}) cache_incident).
  - discriminate.
  - vm_compute. reflexivity.
  - exists emergency_policy. vm_compute. reflexivity.
  - vm_compute. reflexivity.
Defined.

(** X10. A malformed status request is not answered with an error response:
    the handler itself fails with [ValueError].  When an argument name other
    than [service_name] is given, nothing has happened by then; when
    [service_name] is a non-empty list or dictionary, the status call has
    already been written to the execution log. *)
Theorem malformed_status_request_fails (request : ToolRequest) (st : Server) :
  tool_name request = "get_service_status" →
  (accepts ∅ {["service_name"]} (arguments request) = false →
   execute_tool request st
   = (Raise (ValueError (InvalidArguments "get_service_status")), st))
  ∧ (accepts ∅ {["service_name"]} (arguments request) = true →
     truthy (dict_get (arguments request) "service_name") = true →
     hashable (dict_get (arguments request) "service_name") = false →
     execute_tool request st
     = (Raise (ValueError (InvalidArguments "get_service_status")),
        with_infra st
          (_log_action (cloud_infra st) "get_service_status"
             [("service", dict_get (arguments request) "service_name")]))).
Proof.
  intros Htool. unfold execute_tool, _execute_tool_function.
  rewrite Htool. simpl String.eqb. cbv iota. split.
  - intros ->. by rewrite with_infra_same.
  - intros -> Htruthy Hhash. unfold get_service_status. rewrite Htruthy.
    by destruct (dict_get (arguments request) "service_name").
Qed.

Lemma malformed_status_request_fails_witness :
  execute_tool (real_request "get_service_status" {["service" := VStr "cache"]})
    cache_incident
  = (Raise (ValueError (InvalidArguments "get_service_status")), cache_incident)
  ∧ execute_tool
      (real_request "get_service_status"
         {["service_name" := VList [VStr "cache"]]}) cache_incident
    = (Raise (ValueError (InvalidArguments "get_service_status")),
       with_infra cache_incident
         (_log_action (cloud_infra cache_incident) "get_service_status"
            [("service",
              dict_get
                (arguments
                   (real_request "get_service_status"
                      {["service_name" := VList [VStr "cache"]]}))
                "service_name")])).
Proof.
  split.
  - apply (proj1 (malformed_status_request_fails
                    (real_request "get_service_status"
                       {["service" := VStr "cache"]})
                    cache_incident eq_refl)).
    vm_compute. reflexivity.
  - apply (proj2 (malformed_status_request_fails
                    (real_request "get_service_status"
                       {["service_name" := VList [VStr "cache"]]})
                    cache_incident eq_refl)).
    + vm_compute. reflexivity.
    + reflexivity.
    + reflexivity.
Defined.

(** * The agent's tools *)

(** A request for a mutation-class tool that does not carry [service_name]
    never gets past [validate]. *)
Lemma mutation_without_service_name_never_passes (pe : PolicyEngine)
    (tool : string) (args : gmap string pyval) (b : bool) :
  _is_modification_tool tool = true →
  args !! "service_name" = None →
  validate pe tool args ≠ Return b.
Proof.
  intros Hmod Hnone Hvalid.
  pose proof (validated_mutation_has_service_name _ _ _ _ Hvalid Hmod) as Hin.
  apply elem_of_dom in Hin. rewrite Hnone in Hin. by destruct Hin.
Qed.

Lemma agent_call_without_service_name (tool : string)
    (kwargs : gmap string pyval) (st : Server) :
  tool ≠ "get_service_status" →
  _is_modification_tool tool = true →
  kwargs !! "service_name" = None →
  (_execute_mcp_tool tool kwargs st).2 = st
  ∧ ∀ r, (_execute_mcp_tool tool kwargs st).1 ≠ ReplySuccess r.
Proof.
  intros Hstatus Hmod Hnone. unfold _execute_mcp_tool, execute_tool.
  simpl tool_name. simpl arguments.
  destruct (String.eqb_spec tool "get_service_status"); [contradiction |].
  destruct (validate (policy_engine st) tool kwargs) as [b | e] eqn:Hvalid.
  { by apply mutation_without_service_name_never_passes in Hvalid. }
  by destruct e.
Qed.

(** X11. The agent's [scale_fleet] and [delete_database] tools send only a
    count, respectively only a database name.  Whatever the policy document,
    the mode and the health state are, such a call never comes back as a
    success and never changes the server state: it is blocked by the policy
    or fails. *)
Theorem agent_mutation_tools_never_succeed (st : Server) (count : Z)
    (db_name : string) :
  ((agent_scale_fleet count st).2 = st
   ∧ ∀ r, (agent_scale_fleet count st).1 ≠ ReplySuccess r)
  ∧ ((agent_delete_database db_name st).2 = st
     ∧ ∀ r, (agent_delete_database db_name st).1 ≠ ReplySuccess r).
Proof.
  split; apply agent_call_without_service_name; done.
Qed.

(** * Restart of a name that is not a service *)

Lemma service_names_log_action (infra : CloudInfrastructure) act det :
  service_names (_log_action infra act det) = service_names infra.
Proof. reflexivity. Qed.

(** X12. The [success] flag of the gateway does not reflect the tool's own
    status: when a REAL [restart_service] request passes the policy and
    names a string that is not a service (and no name involved contains
    "success"), the answer has [success = true] although its result is the
    tool's "not found" error; the call is logged, and the health map and
    the policy engine are left as they were. *)
Theorem restart_of_unknown_name_is_reported_as_success
    (request : ToolRequest) (st : Server) (R : string) (b : bool) :
  tool_name request = "restart_service" →
  arguments request = {["service_name" := VStr R]} →
  normalised_execution_mode request = "REAL" →
  validate (policy_engine st) "restart_service" (arguments request) = Return b →
  services (cloud_infra st) !! R = None →
  mentions_success (ServiceNotFound (VStr R) (service_names (cloud_infra st)))
  = false →
  execute_tool request st
  = (Return (success_response
               (ToolOutput
                  (ServiceNotFound (VStr R) (service_names (cloud_infra st))))),
     with_infra st
       (_log_action (cloud_infra st) "restart_service" [("service", VStr R)])).
Proof.
  intros Htool Hargs Hreal Hvalid Hunknown Hquiet.
  destruct (real_mode_dispatch _ Hreal) as [Hin Hshadow].
  unfold execute_tool. rewrite Htool. simpl String.eqb. cbv iota.
  rewrite Hvalid, Hin, Hshadow.
  unfold _execute_tool_function. simpl String.eqb. cbv iota.
  rewrite Hargs.
  replace (accepts {["service_name"]} ∅ {["service_name" := VStr R]})
    with true.
  2: { symmetry. unfold accepts. apply bool_decide_eq_true_2.
       rewrite dom_singleton_L. split; set_solver. }
  replace (dict_get {["service_name" := VStr R]} "service_name")
    with (VStr R) by (unfold dict_get; by rewrite lookup_singleton_eq).
  unfold restart_service. simpl services. rewrite Hunknown.
  simpl type_error_to_value_error. cbv beta iota.
  rewrite service_names_log_action, Hquiet. reflexivity.
Qed.

Lemma restart_of_unknown_name_is_reported_as_success_witness :
  execute_tool (real_request "restart_service" {["service_name" := VStr "ghost"]})
    maintenance_server
  = (Return (success_response
               (ToolOutput
                  (ServiceNotFound (VStr "ghost")
                     (service_names (cloud_infra maintenance_server))))),
     with_infra maintenance_server
       (_log_action (cloud_infra maintenance_server) "restart_service"
          [("service", VStr "ghost")])).
Proof.
  apply (restart_of_unknown_name_is_reported_as_success
           (real_request "restart_service" {["service_name" := VStr "ghost"]})
           maintenance_server "ghost" true).
  - reflexivity.
  - reflexivity.
  - vm_compute. reflexivity.
  - vm_compute. reflexivity.
  - vm_compute. reflexivity.
  - vm_compute. reflexivity.
Defined.

(** * Status feedback *)

Lemma policy_engine_eq (a b : PolicyEngine) :
  policy a = policy b → current_mode a = current_mode b →
  unhealthy_services a = unhealthy_services b → a = b.
Proof. destruct a, b. simpl. by intros -> -> ->. Qed.

Lemma observed_in_twice (m : gmap string string) (before after : gset string)
    (svc : string) :
  (∀ x, x ∈ after ↔ observed_in m before x) →
  observed_in m after svc ↔ observed_in m before svc.
Proof.
  intros Hafter. unfold observed_in at 1.
  destruct (m !! svc) as [health |] eqn:Hlook.
  - unfold observed_in. rewrite Hlook.
    destruct (is_unhealthy health) eqn:Hbad; [done |].
    destruct (String.eqb health "healthy") eqn:Hgood; [done |].
    rewrite Hafter. unfold observed_in. by rewrite Hlook, Hbad, Hgood.
  - rewrite Hafter. unfold observed_in. by rewrite Hlook.
Qed.

(** X13. Feeding the health map into the unhealthy set is idempotent: doing
    it a second time, for the same [service_name] and with the health map
    unchanged, gives the state the first time gave. *)
Theorem status_feedback_is_idempotent (service_name : pyval) (st : Server) :
  _update_unhealthy_services service_name
    (_update_unhealthy_services service_name st)
  = _update_unhealthy_services service_name st.
Proof.
  unfold _update_unhealthy_services. simpl. f_equal.
  destruct service_name as [| ? | ? | s | ? | ?]; try done.
  - set (m := services (cloud_infra st)).
    destruct (observe_all_spec (policy_engine st) m) as (Hp1 & Hm1 & Hu1).
    simpl in Hp1, Hm1, Hu1.
    destruct (observe_all_spec
                (map_fold (λ svc health pe, observe pe svc health)
                   (policy_engine st) m) m) as (Hp2 & Hm2 & Hu2).
    simpl in Hp2, Hm2, Hu2.
    apply policy_engine_eq; [done | done |].
    apply set_eq. intros x. rewrite Hu2, Hu1.
    by apply observed_in_twice.
  - destruct (services (cloud_infra st) !! s) as [health |]; [| done].
    apply policy_engine_eq.
    + by rewrite !(proj1 (observe_keeps_policy _ _ _)).
    + by rewrite !(proj2 (observe_keeps_policy _ _ _)).
    + apply set_eq. intros x. destruct (decide (x = s)) as [-> | Hne].
      * rewrite (observe_self (observe _ _ _)).
        destruct (is_unhealthy health) eqn:Hbad;
          [by rewrite observe_self, Hbad |].
        destruct (String.eqb health "healthy") eqn:Hgood;
          [by rewrite observe_self, Hbad, Hgood | done].
      * by rewrite !(observe_other _ _ _ _ Hne).
Qed.

(** * Incidents and manual fixes *)

(** X14. An incident simulated on a service of the health map sets its
    health to the given status and answers with that status and with whether
    it is critical or degraded; the service is in the unhealthy set
    afterwards exactly in that case.  Every other service keeps its health
    and its membership, and the change is the last entry of the execution
    log. *)
Theorem incident_on_known_service (st : Server) (service status old : string) :
  services (cloud_infra st) !! service = Some old →
  (simulate_incident service status st).1
  = Return (status, is_unhealthy status)
  ∧ services (cloud_infra (simulate_incident service status st).2) !! service
    = Some status
  ∧ (service ∈ unhealthy_services
               (policy_engine (simulate_incident service status st).2)
     ↔ is_unhealthy status = true)
  ∧ (∀ other, other ≠ service →
       services (cloud_infra (simulate_incident service status st).2) !! other
       = services (cloud_infra st) !! other
       ∧ (other ∈ unhealthy_services
                    (policy_engine (simulate_incident service status st).2)
          ↔ other ∈ unhealthy_services (policy_engine st)))
  ∧ last (execution_log (cloud_infra (simulate_incident service status st).2))
    = Some {| action := "health_change";
              details := [("service", VStr service); ("old_status", VStr old);
                          ("new_status", VStr status)] |}
  ∧ current_mode (policy_engine (simulate_incident service status st).2)
    = current_mode (policy_engine st).
Proof.
  intros Hold. unfold simulate_incident.
  assert (services (set_service_health (cloud_infra st) service status) !! service
          = Some status) as Hself.
  { by rewrite set_service_health_lookup_self, Hold. }
  rewrite Hself. simpl.
  assert (service ∈ unhealthy_services
                      (if is_unhealthy status
                       then register_unhealthy_service (policy_engine st) service
                       else mark_service_healthy (policy_engine st) service)
          ↔ is_unhealthy status = true) as Hmember.
  { destruct (is_unhealthy status); simpl.
    - rewrite elem_of_union, elem_of_singleton. by split; [| left].
    - rewrite elem_of_difference, elem_of_singleton. by split; [intros [_ ?] |]. }
  split.
  { f_equal. f_equal. destruct (is_unhealthy status) eqn:Hbad.
    - apply bool_decide_eq_true_2. by apply Hmember.
    - apply bool_decide_eq_false_2. intros Hin. by apply Hmember in Hin. }
  split; [exact Hself |]. split; [exact Hmember |]. split; [| split].
  - intros other Hne. split.
    + by apply set_service_health_lookup_other.
    + destruct (is_unhealthy status); simpl.
      * rewrite elem_of_union, elem_of_singleton. by split; [intros [? | ?] | right].
      * rewrite elem_of_difference, elem_of_singleton. by split; [intros [? _] |].
  - unfold set_service_health. rewrite Hold.
    rewrite execution_log_log_action. apply log_push_last.
  - by destruct (is_unhealthy status).
Qed.

Lemma incident_on_known_service_witness :
  (simulate_incident "cache" "degraded" (Server_init ops_policy)).1
  = Return ("degraded", is_unhealthy "degraded")
  ∧ services
      (cloud_infra (simulate_incident "cache" "degraded" (Server_init ops_policy)).2)
    !! "cache" = Some "degraded"
  ∧ ("cache" ∈ unhealthy_services
                 (policy_engine
                    (simulate_incident "cache" "degraded"
                       (Server_init ops_policy)).2)
     ↔ is_unhealthy "degraded" = true)
  ∧ (∀ other, other ≠ "cache" →
       services
         (cloud_infra
            (simulate_incident "cache" "degraded" (Server_init ops_policy)).2)
       !! other
       = services (cloud_infra (Server_init ops_policy)) !! other
       ∧ (other ∈ unhealthy_services
                    (policy_engine
                       (simulate_incident "cache" "degraded"
                          (Server_init ops_policy)).2)
          ↔ other ∈ unhealthy_services (policy_engine (Server_init ops_policy))))
  ∧ last
      (execution_log
         (cloud_infra
            (simulate_incident "cache" "degraded" (Server_init ops_policy)).2))
    = Some {| action := "health_change";
              details := [("service", VStr "cache");
                          ("old_status", VStr "healthy");
                          ("new_status", VStr "degraded")] |}
  ∧ current_mode
      (policy_engine
         (simulate_incident "cache" "degraded" (Server_init ops_policy)).2)
    = current_mode (policy_engine (Server_init ops_policy)).
Proof.
  apply (incident_on_known_service (Server_init ops_policy) "cache" "degraded"
           "healthy").
  vm_compute. reflexivity.
Defined.

(** X15. After a manual fix the service is not in the unhealthy set and,
    when it is a service of the health map, its health is "healthy" (an
    unknown name leaves the health map alone).  Every other service keeps
    its health and its membership, the answer lists the unhealthy set that
    remains, and the mode is unchanged. *)
Theorem manual_fix_effect (st : Server) (service : string) :
  (service ∉ unhealthy_services (policy_engine (fix_service service st).2))
  ∧ services (cloud_infra (fix_service service st).2) !! service
    = (λ _, "healthy") <$> services (cloud_infra st) !! service
  ∧ (∀ other, other ≠ service →
       services (cloud_infra (fix_service service st).2) !! other
       = services (cloud_infra st) !! other
       ∧ (other ∈ unhealthy_services (policy_engine (fix_service service st).2)
          ↔ other ∈ unhealthy_services (policy_engine st)))
  ∧ (∀ name, name ∈ (fix_service service st).1
             ↔ name ∈ unhealthy_services (policy_engine st) ∧ name ≠ service)
  ∧ current_mode (policy_engine (fix_service service st).2)
    = current_mode (policy_engine st).
Proof.
  unfold fix_service. simpl. split; [| split; [| split; [| split]]].
  - rewrite elem_of_difference, elem_of_singleton. by intros [_ ?].
  - apply set_service_health_lookup_self.
  - intros other Hne. split.
    + by apply set_service_health_lookup_other.
    + rewrite elem_of_difference, elem_of_singleton. by split; [intros [? _] |].
  - intros name. by rewrite elem_of_elements, elem_of_difference, elem_of_singleton.
  - done.
Qed.

Lemma manual_fix_effect_witness :
  services (cloud_infra (fix_service "cache" cache_incident).2) !! "database"
  = services (cloud_infra cache_incident) !! "database"
  ∧ ("database"
     ∈ unhealthy_services (policy_engine (fix_service "cache" cache_incident).2)
     ↔ "database" ∈ unhealthy_services (policy_engine cache_incident)).
Proof.
  destruct (manual_fix_effect cache_incident "cache") as (_ & _ & Hother & _).
  apply Hother. discriminate.
Defined.

(** * The policy decision as a whole *)

(** X16. [validate] allows a request exactly when the tool passes the three
    list checks of the current mode and, for a mutation-class tool, the
    [service_name] is truthy and - in EMERGENCY mode with the restriction
    flag - is a string of the unhealthy set.  It never returns [False]. *)
Theorem validate_allows_iff (pe : PolicyEngine) (tool : string)
    (args : gmap string pyval) :
  (validate pe tool args = Return true
   ↔ ∃ mp,
       passes_list_checks pe tool mp
       ∧ (_is_modification_tool tool = true →
          truthy (dict_get args "service_name") = true
          ∧ (current_mode pe = "EMERGENCY" →
             restrictions_enabled mp = true →
             ∃ s, dict_get args "service_name" = VStr s
                  ∧ s ∈ unhealthy_services pe)))
  ∧ validate pe tool args ≠ Return false.
Proof.
  assert (∀ mp b,
            service_specific_check pe tool mp args = Return b →
            b = true
            ∧ (_is_modification_tool tool = true →
               truthy (dict_get args "service_name") = true
               ∧ (current_mode pe = "EMERGENCY" →
                  restrictions_enabled mp = true →
                  ∃ s, dict_get args "service_name" = VStr s
                       ∧ s ∈ unhealthy_services pe))) as Hcheck.
  { intros mp b. unfold service_specific_check, health_gate.
    destruct (_is_modification_tool tool); [| by intros [= <-]].
    destruct (truthy (dict_get args "service_name")); [| discriminate].
    simpl negb. cbv iota.
    destruct (String.eqb_spec (current_mode pe) "EMERGENCY") as [Hmode | Hmode];
      [| by intros [= <-]].
    destruct (restrictions_enabled mp); simpl andb; cbv iota;
      [| by intros [= <-]].
    destruct (dict_get args "service_name") as [| ? | ? | s | ? | ?];
      try discriminate.
    case_bool_decide as Hin; [| discriminate].
    intros [= <-]. split; [done |]. intros _. split; [done |].
    intros _ _. by exists s. }
  split; [split |].
  - intros Hvalid.
    destruct (validate_return_inv _ _ _ _ Hvalid) as (mp & Hpass & Hrun).
    exists mp. split; [done |]. by apply (Hcheck mp true).
  - intros (mp & Hpass & Htarget).
    rewrite (validate_past_list_checks _ _ _ _ Hpass).
    unfold service_specific_check, health_gate.
    destruct (_is_modification_tool tool); [| done].
    destruct (Htarget eq_refl) as [-> Hgate]. simpl negb. cbv iota.
    destruct (String.eqb_spec (current_mode pe) "EMERGENCY") as [Hmode | Hmode];
      [| done].
    destruct (restrictions_enabled mp); simpl andb; cbv iota; [| done].
    destruct (Hgate Hmode eq_refl) as (s & -> & Hin).
    by rewrite (bool_decide_eq_true_2 _ Hin).
  - intros Hvalid.
    destruct (validate_return_inv _ _ _ _ Hvalid) as (mp & _ & Hrun).
    by destruct (Hcheck mp false Hrun).
Qed.



(** X18. Registering more services as unhealthy never revokes a
    permission: a request [validate] allows stays allowed when the
    unhealthy set grows. *)
Theorem more_unhealthy_services_never_revoke (pe : PolicyEngine)
    (more : gset string) (tool : string) (args : gmap string pyval) :
  validate pe tool args = Return true →
  validate {| policy := policy pe; current_mode := current_mode pe;
              unhealthy_services := unhealthy_services pe ∪ more |} tool args
  = Return true.
Proof.
  unfold validate, service_specific_check, health_gate, violation. simpl.
  case_bool_decide; [discriminate |].
  destruct (modes (policy pe) !! current_mode pe) as [mp |]; [| discriminate].
  case_bool_decide; [discriminate |].
  destruct (negb (bool_decide _)); [discriminate |].
  destruct (_is_modification_tool tool); [| done].
  destruct (negb (truthy _)); [discriminate |].
  destruct (_ && _); [| done].
  destruct (dict_get args "service_name") as [| ? | ? | s | ? | ?];
    try discriminate.
  case_bool_decide as Hin; [| discriminate].
  intros _. rewrite bool_decide_eq_true_2; [done |].
  apply elem_of_union. by left.
Qed.

Lemma more_unhealthy_services_never_revoke_witness :
  validate
    {| policy := policy (emergency_engine {["cache"]});
       current_mode := current_mode (emergency_engine {["cache"]});
       unhealthy_services :=
         unhealthy_services (emergency_engine {["cache"]}) ∪ {["database"]} |}
    "restart_service" {["service_name" := VStr "cache"]}
  = Return true.
Proof.
  apply (more_unhealthy_services_never_revoke (emergency_engine {["cache"]})
           {["database"]} "restart_service"
           {["service_name" := VStr "cache"]}).
  vm_compute. reflexivity.
Defined.

(** * Reading tools *)

Lemma service_log_line_length (kv : string * string) :
  (length (service_log_line kv) ≤ 1)%nat.
Proof.
  unfold service_log_line.
  destruct (String.eqb kv.2 "healthy"); [done |].
  destruct (String.eqb kv.2 "degraded"); [done |].
  destruct (String.eqb kv.2 "critical"); simpl; lia.
Qed.

Lemma service_log_lines_length (l : list (string * string)) :
  (length (l ≫= service_log_line) ≤ length l)%nat.
Proof.
  induction l as [| kv l IH]; [done |].
  rewrite bind_cons, length_app. simpl.
  pose proof (service_log_line_length kv). lia.
Qed.

(** X19. [read_logs] with a non-negative integer [lines] returns at most
    that many lines and never more than there are: the number returned is
    the minimum of [lines] and [total_available], and [total_available] is
    the three general lines plus at most one line per service.  The call is
    logged and changes nothing else. *)
Theorem read_logs_returns_at_most_lines (infra : CloudInfrastructure) (n : Z) :
  (0 ≤ n)%Z →
  ∃ shown total,
    (read_logs infra (VInt n)).1
    = Return (LogLines shown total (size (services infra)))
    ∧ length shown = Nat.min (Z.to_nat n) total
    ∧ (3 ≤ total ≤ size (services infra) + 3)%nat
    ∧ (read_logs infra (VInt n)).2
      = _log_action infra "read_logs" [("lines", VInt n)].
Proof.
  intros Hn. unfold read_logs. simpl. eexists _, _.
  split; [reflexivity |]. split; [| split; [| reflexivity]].
  - unfold slice_to. destruct (Z.leb_spec 0 n); [| lia].
    apply length_take.
  - rewrite length_app. simpl.
    pose proof (service_log_lines_length (map_to_list (services infra))) as Hlen.
    rewrite length_map_to_list in Hlen. lia.
Qed.

Lemma read_logs_returns_at_most_lines_witness :
  ∃ shown total,
    (read_logs CloudInfrastructure_init (VInt 2)).1
    = Return (LogLines shown total (size (services CloudInfrastructure_init)))
    ∧ length shown = Nat.min (Z.to_nat 2) total
    ∧ (3 ≤ total ≤ size (services CloudInfrastructure_init) + 3)%nat
    ∧ (read_logs CloudInfrastructure_init (VInt 2)).2
      = _log_action CloudInfrastructure_init "read_logs" [("lines", VInt 2)].
Proof.
  apply (read_logs_returns_at_most_lines CloudInfrastructure_init 2). lia.
Defined.

(** X20. A status request without a (truthy) service name reports the whole
    health map and the fleet size; its list of unhealthy services has no
    duplicates and holds exactly the services whose health is critical or
    degraded, [unhealthy_count] is the length of that list, and
    [all_healthy] is true exactly when no service is critical or degraded. *)
Theorem status_of_all_services (infra : CloudInfrastructure)
    (service_name : pyval) :
  truthy service_name = false →
  ∃ unhealthy all_healthy,
    (get_service_status infra service_name).1
    = Return (AllServices (services infra) (fleet_size infra)
                (length unhealthy) unhealthy all_healthy)
    ∧ NoDup unhealthy
    ∧ (∀ svc, svc ∈ unhealthy
              ↔ services infra !! svc = Some "critical"
                ∨ services infra !! svc = Some "degraded")
    ∧ (all_healthy = true
       ↔ ∀ svc, services infra !! svc ≠ Some "critical"
                ∧ services infra !! svc ≠ Some "degraded").
Proof.
  intros Hfalsy. unfold get_service_status. rewrite Hfalsy.
  exists (get_unhealthy_services infra),
         (bool_decide (length (get_unhealthy_services infra) = 0)).
  split; [reflexivity |].
  assert (∀ svc, svc ∈ get_unhealthy_services infra
                 ↔ services infra !! svc = Some "critical"
                   ∨ services infra !! svc = Some "degraded") as Hmember.
  { intros svc. unfold get_unhealthy_services.
    rewrite elem_of_elements, elem_of_unhealthy_of. split.
    - intros (health & Hlook & Hbad). unfold is_unhealthy in Hbad.
      apply bool_decide_eq_true_1 in Hbad.
      rewrite !elem_of_cons, elem_of_nil in Hbad.
      destruct Hbad as [-> | [-> | []]]; [by left | by right].
    - intros [Hlook | Hlook]; eexists; (split; [exact Hlook | done]). }
  split; [unfold get_unhealthy_services; apply NoDup_elements |].
  split; [exact Hmember |].
  rewrite bool_decide_eq_true. split.
  - intros Hnone svc.
    apply nil_length_inv in Hnone.
    pose proof (proj2 (Hmember svc)) as Hsvc. rewrite Hnone in Hsvc.
    split; intros Hlook.
    + eapply not_elem_of_nil, Hsvc. by left.
    + eapply not_elem_of_nil, Hsvc. by right.
  - intros Hall. destruct (get_unhealthy_services infra) as [| svc l]; [done |].
    exfalso. destruct (Hall svc) as [Hc Hd].
    destruct (proj1 (Hmember svc) (list_elem_of_here _ _)); contradiction.
Qed.

Lemma status_of_all_services_witness :
  ∃ unhealthy all_healthy,
    (get_service_status (cloud_infra cache_incident) VNone).1
    = Return (AllServices (services (cloud_infra cache_incident))
                (fleet_size (cloud_infra cache_incident))
                (length unhealthy) unhealthy all_healthy)
    ∧ NoDup unhealthy
    ∧ (∀ svc, svc ∈ unhealthy
              ↔ services (cloud_infra cache_incident) !! svc = Some "critical"
                ∨ services (cloud_infra cache_incident) !! svc = Some "degraded")
    ∧ (all_healthy = true
       ↔ ∀ svc, services (cloud_infra cache_incident) !! svc ≠ Some "critical"
                ∧ services (cloud_infra cache_incident) !! svc ≠ Some "degraded").
Proof.
  apply (status_of_all_services (cloud_infra cache_incident) VNone).
  reflexivity.
Defined.

Lemma reachable_health_sync_witness : health_sync cache_incident.
Proof.
  apply (reachable_health_sync ops_policy). unfold cache_incident.
  apply reach_incident.
  - apply reach_mode. apply reach_init.
  - exists "healthy". vm_compute. reflexivity.
Defined.

(** * What the health gate guarantees *)

(** While the two health structures agree, a restart that the gate lets
    pass names a service whose health is critical or degraded. *)
Lemma gate_target_is_broken (st : Server) (mp : ModePolicy)
    (args : gmap string pyval) (b : bool) :
  health_sync st →
  current_mode (policy_engine st) = "EMERGENCY" →
  modes (policy (policy_engine st)) !! "EMERGENCY" = Some mp →
  restrictions_enabled mp = true →
  validate (policy_engine st) "restart_service" args = Return b →
  ∃ R health,
    dict_get args "service_name" = VStr R
    ∧ services (cloud_infra st) !! R = Some health
    ∧ is_unhealthy health = true.
Proof.
  intros Hsync Hmode Hmp Hen Hvalid.
  destruct (validate_return_inv _ _ _ _ Hvalid) as (mp' & Hpass & Hcheck).
  assert (mp' = mp) as ->.
  { destruct Hpass as (_ & Hlook & _). rewrite Hmode in Hlook. congruence. }
  unfold service_specific_check, health_gate in Hcheck.
  replace (_is_modification_tool "restart_service") with true in Hcheck by done.
  destruct (truthy (dict_get args "service_name")); [| discriminate].
  rewrite Hmode, Hen in Hcheck. simpl in Hcheck.
  destruct (dict_get args "service_name") as [| ? | ? | R | ? | ?];
    try discriminate.
  case_bool_decide as Hin; [| discriminate].
  rewrite Hsync in Hin. apply elem_of_unhealthy_of in Hin.
  destruct Hin as (health & Hlook & Hbad). by exists R, health.
Qed.

(** X23. While the unhealthy set agrees with the health map, in EMERGENCY
    mode with the restriction flag, every well-formed REAL restart that the
    policy lets pass restarts a service that exists and was critical or
    degraded: the answer is a success that carries the restart result with
    that old health, the service is healthy afterwards and has left the
    unhealthy set. *)
Theorem gated_restart_fixes_a_broken_service (request : ToolRequest)
    (st : Server) (mp : ModePolicy) (b : bool) :
  health_sync st →
  current_mode (policy_engine st) = "EMERGENCY" →
  modes (policy (policy_engine st)) !! "EMERGENCY" = Some mp →
  restrictions_enabled mp = true →
  tool_name request = "restart_service" →
  accepts {["service_name"]} ∅ (arguments request) = true →
  normalised_execution_mode request = "REAL" →
  validate (policy_engine st) "restart_service" (arguments request) = Return b →
  ∃ R old,
    dict_get (arguments request) "service_name" = VStr R
    ∧ services (cloud_infra st) !! R = Some old
    ∧ is_unhealthy old = true
    ∧ (execute_tool request st).1
      = Return (success_response (ToolOutput (RestartSuccess R old)))
    ∧ services (cloud_infra (execute_tool request st).2) !! R = Some "healthy"
    ∧ R ∉ unhealthy_services (policy_engine (execute_tool request st).2).
Proof.
  intros Hsync Hmode Hmp Hen Htool Haccepts Hreal Hvalid.
  destruct (gate_target_is_broken st mp _ b Hsync Hmode Hmp Hen Hvalid)
    as (R & old & Hget & Hlook & Hbad).
  exists R, old. split; [done |]. split; [done |]. split; [done |].
  assert (truthy (VStr R) = true) as Htruthy.
  { destruct (validate_return_inv _ _ _ _ Hvalid) as (mp' & _ & Hcheck).
    unfold service_specific_check in Hcheck.
    replace (_is_modification_tool "restart_service") with true in Hcheck
      by done.
    rewrite Hget in Hcheck. by destruct (truthy (VStr R)). }
  destruct (real_mode_dispatch _ Hreal) as [Hin Hshadow].
  unfold execute_tool. rewrite Htool. simpl String.eqb. cbv iota.
  rewrite Hvalid, Hin, Hshadow.
  unfold _execute_tool_function. simpl String.eqb. cbv iota.
  rewrite Haccepts, Hget. unfold restart_service. simpl services.
  rewrite Hlook. simpl type_error_to_value_error. cbv beta iota.
  simpl andb. cbv iota. unfold reconcile_restart. rewrite Htruthy.
  simpl. split; [done |]. split.
  - rewrite set_service_health_lookup_self. simpl.
    by rewrite lookup_insert_eq.
  - rewrite elem_of_difference, elem_of_singleton. by intros [_ ?].
Qed.

Lemma gated_restart_fixes_a_broken_service_witness :
  ∃ R old,
    dict_get
      (arguments (real_request "restart_service"
                    {["service_name" := VStr "cache"]})) "service_name"
    = VStr R
    ∧ services (cloud_infra cache_incident) !! R = Some old
    ∧ is_unhealthy old = true
    ∧ (execute_tool (real_request "restart_service"
                       {["service_name" := VStr "cache"]}) cache_incident).1
      = Return (success_response (ToolOutput (RestartSuccess R old)))
    ∧ services
        (cloud_infra
           (execute_tool (real_request "restart_service"
                            {["service_name" := VStr "cache"]}) cache_incident).2)
      !! R = Some "healthy"
    ∧ R ∉ unhealthy_services
            (policy_engine
               (execute_tool (real_request "restart_service"
                                {["service_name" := VStr "cache"]})
                  cache_incident).2).
Proof.
  apply (gated_restart_fixes_a_broken_service
           (real_request "restart_service" {["service_name" := VStr "cache"]})
           cache_incident emergency_policy true).
  - unfold health_sync. by_evaluation.
  - reflexivity.
  - vm_compute. reflexivity.
  - reflexivity.
  - reflexivity.
  - vm_compute. reflexivity.
  - vm_compute. reflexivity.
  - vm_compute. reflexivity.
Defined.

(** X24. Under the same conditions a SHADOW restart that the policy lets
    pass is answered with an impact report for a service that exists, and
    the health it reports is critical or degraded; the state is untouched. *)
Theorem gated_shadow_restart_reports_broken_health (request : ToolRequest)
    (st : Server) (mp : ModePolicy) (b : bool) :
  health_sync st →
  current_mode (policy_engine st) = "EMERGENCY" →
  modes (policy (policy_engine st)) !! "EMERGENCY" = Some mp →
  restrictions_enabled mp = true →
  tool_name request = "restart_service" →
  normalised_execution_mode request = "SHADOW" →
  validate (policy_engine st) "restart_service" (arguments request) = Return b →
  ∃ R health,
    execute_tool request st
    = (Return (success_response (ShadowOutput (ImpactRestart (VStr R) health))),
       st)
    ∧ services (cloud_infra st) !! R = Some health
    ∧ is_unhealthy health = true.
Proof.
  intros Hsync Hmode Hmp Hen Htool Hshadow Hvalid.
  destruct (gate_target_is_broken st mp _ b Hsync Hmode Hmp Hen Hvalid)
    as (R & health & Hget & Hlook & Hbad).
  exists R, health. split; [| by split].
  destruct (shadow_mode_dispatch _ Hshadow) as [Hin Heq].
  unfold execute_tool. rewrite Htool. simpl String.eqb. cbv iota.
  rewrite Hvalid, Hin, Heq. unfold simulate. simpl String.eqb. cbv iota.
  rewrite Hget. simpl. by rewrite Hlook.
Qed.

Lemma gated_shadow_restart_reports_broken_health_witness :
  ∃ R health,
    execute_tool shadow_restart_cache cache_incident
    = (Return (success_response (ShadowOutput (ImpactRestart (VStr R) health))),
       cache_incident)
    ∧ services (cloud_infra cache_incident) !! R = Some health
    ∧ is_unhealthy health = true.
Proof.
  apply (gated_shadow_restart_reports_broken_health shadow_restart_cache
           cache_incident emergency_policy true).
  - unfold health_sync. by_evaluation.
  - reflexivity.
  - vm_compute. reflexivity.
  - reflexivity.
  - reflexivity.
  - vm_compute. reflexivity.
  - vm_compute. reflexivity.
Defined.
